(** * Jarvis voice assistant: conversation state, command router, speaker

    A shallow embedding of the orchestration core of the assistant
    ([brain.py], [main.py], [speak.py], with the constants of [config.py]
    and the registry of [skills.py]) and the properties stated about it.

    Conventions of the embedding:
    - Python [str] is [string]; a character is a code point below 256
      (Latin-1), which fixes [str.lower], [str.strip] and [str.split];
    - Python [int] is [Z]; [len] is [Z.of_nat (length _)];
    - a call that may raise returns a [result]; a [try] statement is the
      combinator [try_except], with Python's rule that an exception raised
      inside a handler leaves the whole statement;
    - the language model, the skill handlers and the speech engine are
      collaborators outside the program: each is an oracle passed as an
      argument, so every statement quantifies over all their behaviours;
    - logging and console output are not part of the state. *)

From Stdlib Require Import ZArith List Bool Lia String Ascii NArith.
From Stdlib Require Import Numbers.DecimalString.
Import ListNotations.

Open Scope string_scope.
Open Scope Z_scope.

(* ====================================================================== *)
(** ** Python strings *)
(* ====================================================================== *)

Module PyStr.

(** [str.isspace] on one code point below 256: TAB..CR, FS..US, SPACE,
    NEL (0x85) and NBSP (0xA0). *)
Definition is_space (c : ascii) : bool :=
  let n := N_of_ascii c in
  (((9 <=? n) && (n <=? 13)) || ((28 <=? n) && (n <=? 31)) ||
   (n =? 32) || (n =? 133) || (n =? 160))%N.

(** [str.lower] on one code point below 256: A..Z and the Latin-1 capitals
    0xC0..0xDE (the multiplication sign 0xD7 apart) move up by 32. *)
Definition lower_char (c : ascii) : ascii :=
  let n := N_of_ascii c in
  if (((65 <=? n) && (n <=? 90)) ||
      ((192 <=? n) && (n <=? 222) && negb (n =? 215)))%N
  then ascii_of_N (n + 32) else c.

Fixpoint lower (s : string) : string :=
  match s with
  | EmptyString => EmptyString
  | String c s' => String (lower_char c) (lower s')
  end.

(** [len(s)] *)
Definition len (s : string) : Z := Z.of_nat (String.length s).

(** Truth value of a string: [not s] is [is_empty s]. *)
Definition is_empty (s : string) : bool :=
  match s with EmptyString => true | _ => false end.

(** [k in s] *)
Fixpoint str_in (k s : string) : bool :=
  String.prefix k s ||
  match s with
  | EmptyString => false
  | String _ s' => str_in k s'
  end.

(** What [k in s] means: [k] occurs as a contiguous block of [s]. *)
Definition substring_of (k s : string) : Prop :=
  exists pre post, s = pre ++ k ++ post.

Fixpoint drop (n : nat) (s : string) : string :=
  match n, s with
  | O, _ => s
  | S n', String _ s' => drop n' s'
  | S _, EmptyString => EmptyString
  end.

(** [s.replace(old, new)]: every non-overlapping occurrence, left to right.
    [skip] counts the characters of a matched occurrence still to pass. *)
Fixpoint replace_go (old new : string) (skip : nat) (s : string) : string :=
  match s with
  | EmptyString => EmptyString
  | String c s' =>
      match skip with
      | S k => replace_go old new k s'
      | O =>
          if String.prefix old s
          then new ++ replace_go old new (String.length old - 1) s'
          else String c (replace_go old new 0 s')
      end
  end.

Fixpoint intersperse (new s : string) : string :=
  match s with
  | EmptyString => new
  | String c s' => new ++ String c (intersperse new s')
  end.

Definition replace (old new s : string) : string :=
  if is_empty old then intersperse new s else replace_go old new 0 s.

(** [s.replace(old, new, 1)]: the first occurrence only. *)
Fixpoint replace_first (old new s : string) : string :=
  if String.prefix old s then new ++ drop (String.length old) s
  else match s with
       | EmptyString => EmptyString
       | String c s' => String c (replace_first old new s')
       end.

Fixpoint lstrip (s : string) : string :=
  match s with
  | EmptyString => EmptyString
  | String c s' => if is_space c then lstrip s' else s
  end.

Fixpoint rstrip (s : string) : string :=
  match s with
  | EmptyString => EmptyString
  | String c s' =>
      let r := rstrip s' in
      if is_space c && is_empty r then EmptyString else String c r
  end.

(** [s.strip()] *)
Definition strip (s : string) : string := rstrip (lstrip s).

(** [s.split()]: the maximal runs of non-space characters. *)
Fixpoint split (s : string) : list string :=
  match s with
  | EmptyString => []
  | String c s' =>
      if is_space c then split s'
      else match s' with
           | EmptyString => [String c EmptyString]
           | String c' _ =>
               if is_space c' then String c EmptyString :: split s'
               else match split s' with
                    | w :: ws => String c w :: ws
                    | [] => [String c EmptyString]
                    end
           end
  end.

(** [sep.join(l)] *)
Fixpoint join (sep : string) (l : list string) : string :=
  match l with
  | [] => EmptyString
  | [w] => w
  | w :: ws => w ++ sep ++ join sep ws
  end.

(** [str(n)] for an [int]. *)
Definition str_of_int (n : Z) : string :=
  NilEmpty.string_of_int (Z.to_int n).

End PyStr.

(* ====================================================================== *)
(** ** Exceptions and the [try] statement *)
(* ====================================================================== *)

Module Py.

(** The exception classes the program tells apart or raises by itself.
    [OtherException] is any other subclass of [Exception] (ValueError,
    TimeoutError, ...). *)
Inductive exn_class : Type :=
| ResponseError
| ConnectionError
| IndexError
| AttributeError
| TypeError
| OtherException.

(** An exception object: its class and its [str()]. *)
Record exn : Type := mkExn { exn_cls : exn_class; exn_text : string }.

Inductive result (A : Type) : Type :=
| Ret (v : A)
| Raise (e : exn).
Arguments Ret {A} v.
Arguments Raise {A} e.

(** One [except C as e: body] clause: does the class match, and the body. *)
Definition except_clause (A : Type) : Type := ((exn -> bool) * (exn -> result A))%type.

(** The clauses are tried in order; the body of the first that matches runs
    and its outcome, a value or an exception, is the outcome of the whole
    statement: no later clause of the same [try] sees it. *)
Fixpoint dispatch {A} (clauses : list (except_clause A)) (e : exn) : result A :=
  match clauses with
  | [] => Raise e
  | (matches, body) :: rest => if matches e then body e else dispatch rest e
  end.

Definition try_except {A} (body : result A) (clauses : list (except_clause A)) : result A :=
  match body with
  | Ret v => Ret v
  | Raise e => dispatch clauses e
  end.

(** [isinstance(e, Exception)]: every modelled class derives from it. *)
Definition is_Exception (_ : exn) : bool := true.

Definition is_ResponseError (e : exn) : bool :=
  match exn_cls e with ResponseError => true | _ => false end.

Definition is_ConnectionError (e : exn) : bool :=
  match exn_cls e with ConnectionError => true | _ => false end.

Definition returns {A} (r : result A) : Prop := exists v, r = Ret v.
Definition raises {A} (r : result A) : Prop := exists e, r = Raise e.

End Py.

(* ====================================================================== *)
(** ** Configuration ([config.py]) *)
(* ====================================================================== *)

Record Config : Type := mkConfig {
  WAKE_WORDS : list string;
  STOP_WORDS : list string;
  MAX_HISTORY_LENGTH : Z;
  ENABLE_CONTEXT : bool
}.

(** The values [config.py] takes when the environment sets none. *)
Definition default_config : Config :=
  {| WAKE_WORDS := ["jarvis"; "hey jarvis"];
     STOP_WORDS := ["stop"; "silence"; "quiet"; "shut up"];
     MAX_HISTORY_LENGTH := 10;
     ENABLE_CONTEXT := true |}.

(* ====================================================================== *)
(** ** Conversation state ([brain.py]) *)
(* ====================================================================== *)

Module Brain.
Import Py PyStr.

Inductive Role : Type := system | user | assistant.

(** A message dictionary [{"role": ..., "content": ...}]. *)
Record Message : Type := mkMessage { role : Role; content : string }.

(** What [d.get(key, default)] finds under a key of a reply: no such key,
    the value [None], or a value. *)
Inductive entry (A : Type) : Type :=
| Absent
| PyNone
| Present (a : A).
Arguments Absent {A}.
Arguments PyNone {A}.
Arguments Present {A} a.

(** The reply of [ollama.chat]: under ["message"] a message, under its
    ["content"] a string.  A dictionary can lack either key; the reply
    object of the client has both, and its content can be [None]. *)
Record ReplyMessage : Type := mkReplyMessage { reply_content : entry string }.
Record Response : Type := mkResponse { message : entry ReplyMessage }.

(** The language model: from the message list sent to it, a reply or an
    exception.  The model name and the sampling options of the call are
    constants of the request that no branch of [chat] reads. *)
Definition Backend : Type := list Message -> result Response.

Record Brain : Type := mkBrain {
  system_prompt : string;
  history : list Message;
  last_topic : option string;
  interaction_count : Z
}.

(** [len(self.history)] *)
Definition hlen (b : Brain) : Z := Z.of_nat (List.length (history b)).

(** [Brain.__init__], the prompt (the caller's or the default personality
    text) already chosen. *)
Definition init (prompt : string) : Brain :=
  {| system_prompt := prompt; history := []; last_topic := None;
     interaction_count := 0 |}.

Definition set_history (b : Brain) (h : list Message) : Brain :=
  {| system_prompt := system_prompt b; history := h;
     last_topic := last_topic b; interaction_count := interaction_count b |}.

Section WithConfig.
Variable cfg : Config.

(** [Brain._trim_history]; [self.history[excess:]] with [excess > 0]. *)
Definition _trim_history (b : Brain) : Brain :=
  let max_length := MAX_HISTORY_LENGTH cfg in
  let excess := Z.of_nat (List.length (history b)) - max_length in
  if 0 <? excess
  then set_history b (skipn (Z.to_nat excess) (history b))
  else b.

(** [Brain.clear_history] *)
Definition clear_history (b : Brain) : Brain :=
  {| system_prompt := system_prompt b; history := [];
     last_topic := None; interaction_count := 0 |}.

(** [self.history.append(m)] *)
Definition append_message (b : Brain) (m : Message) : Brain :=
  set_history b (history b ++ [m])%list.

(** [self.history[-1]] *)
Definition history_last (b : Brain) : result Message :=
  match rev (history b) with
  | m :: _ => Ret m
  | [] => Raise (mkExn IndexError "list index out of range")
  end.

(** STEP 2 of [chat]: the system prompt, then the whole history or only
    its last entry. *)
Definition build_messages (b : Brain) : result (list Message) :=
  let messages := [mkMessage system (system_prompt b)] in
  if ENABLE_CONTEXT cfg then Ret (messages ++ history b)%list
  else match history_last b with
       | Ret m => Ret (messages ++ [m])%list
       | Raise e => Raise e
       end.

(** [response.get('message', {}).get('content', '')], as the receiver of
    [.strip()]: a missing key gives the default, and [None] under either
    key raises [AttributeError], at [.get] for the message and at [.strip]
    for the content. *)
Definition get_content (r : Response) : result string :=
  match message r with
  | Absent => Ret EmptyString
  | PyNone =>
      Raise (mkExn AttributeError "'NoneType' object has no attribute 'get'")
  | Present m =>
      match reply_content m with
      | Absent => Ret EmptyString
      | PyNone =>
          Raise (mkExn AttributeError "'NoneType' object has no attribute 'strip'")
      | Present s => Ret s
      end
  end.

Definition clarification : string :=
  "I apologize, but I didn't generate a response. Could you rephrase that?".

(** STEP 1 of [chat]: the user message appended, the interaction counted,
    the history trimmed. *)
Definition add_user_message (b : Brain) (user_message : string) : Brain :=
  let b1 := append_message b (mkMessage user user_message) in
  let b1 := {| system_prompt := system_prompt b1; history := history b1;
               last_topic := last_topic b1;
               interaction_count := interaction_count b1 + 1 |} in
  _trim_history b1.

(** The body of the [try] in [chat], STEP 1 to STEP 4: the brain it leaves
    and the value it returns or the exception that leaves it. *)
Definition chat_try (backend : Backend) (b : Brain) (user_message : string)
  : Brain * result string :=
  let b2 := add_user_message b user_message in
  match build_messages b2 with
  | Raise e => (b2, Raise e)
  | Ret messages =>
      match backend messages with
      | Raise e => (b2, Raise e)
      | Ret response =>
          match get_content response with
          | Raise e => (b2, Raise e)
          | Ret content =>
              let assistant_reply := strip content in
              if is_empty assistant_reply then (b2, Ret clarification)
              else
                let b3 := append_message b2 (mkMessage assistant assistant_reply) in
                (_trim_history b3, Ret assistant_reply)
          end
      end
  end.

(** [except Exception as ollama_exc:] a backend error and a connection
    error become diagnostic strings, anything else is raised again. *)
Definition on_ollama_exc (e : exn) : result string :=
  if is_ResponseError e then
    Ret ("I encountered an issue with the AI model: " ++ exn_text e ++ ". " ++
         "Please make sure Ollama is running and the model is available.")
  else if is_ConnectionError e then
    Ret ("I can't connect to the AI model right now. " ++
         "Please make sure Ollama is installed and running on your system. " ++
         "You can download it from https://ollama.com/download")
  else Raise e.

(** [except Exception as exc:] the second clause of the same [try]. *)
Definition on_unexpected (e : exn) : result string :=
  Ret ("I encountered an unexpected error: " ++ exn_text e).

(** [Brain.chat] *)
Definition chat (backend : Backend) (b : Brain) (user_message : string)
  : Brain * result string :=
  let (b', r) := chat_try backend b user_message in
  (b', try_except r [(is_Exception, on_ollama_exc); (is_Exception, on_unexpected)]).

(** A run of calls, each with the backend behaviour it meets; the brains
    after each call, in order. *)
Fixpoint chat_trace (b : Brain) (calls : list (string * Backend)) : list Brain :=
  match calls with
  | [] => []
  | (m, backend) :: rest =>
      let b' := fst (chat backend b m) in b' :: chat_trace b' rest
  end.

(** History mutations on their own: an append or a trim. *)
Inductive hist_op : Type :=
| Append (m : Message)
| Trim.

Definition apply_op (b : Brain) (op : hist_op) : Brain :=
  match op with
  | Append m => append_message b m
  | Trim => _trim_history b
  end.

Definition run_ops (b : Brain) (ops : list hist_op) : Brain :=
  fold_left apply_op ops b.

End WithConfig.

(** What [_trim_history] leaves of a history [h]. *)
Definition trimmed (cfg : Config) (h : list Message) : list Message :=
  skipn (Z.to_nat (Z.of_nat (List.length h) - MAX_HISTORY_LENGTH cfg)) h.

(** The backend outcomes that [chat] answers with a diagnostic string: a
    backend error, a connection error, a reply whose text is empty or
    blank.  A reply with [None] where the text should be is not one of
    them: [chat] raises on it. *)
Definition is_diagnostic (outcome : result Response) : bool :=
  match outcome with
  | Raise e => is_ResponseError e || is_ConnectionError e
  | Ret response =>
      match get_content response with
      | Ret content => is_empty (strip content)
      | Raise _ => false
      end
  end.

(** The same mutations with no bound: every append kept. *)
Fixpoint unbounded (h : list Message) (ops : list hist_op) : list Message :=
  match ops with
  | [] => h
  | Append m :: rest => unbounded (h ++ [m])%list rest
  | Trim :: rest => unbounded h rest
  end.

(** The [k] most recent entries of [l]. *)
Definition most_recent {A} (k : nat) (l : list A) : list A :=
  skipn (List.length l - k) l.

(** How many entries a history of [n] entries holds after the mutations
    [ops]: an append adds one, a trim leaves at most [MAX_HISTORY_LENGTH]
    (none under a negative bound). *)
Definition retained_length (cfg : Config) (n : nat) (ops : list hist_op) : nat :=
  fold_left (fun n op =>
               match op with
               | Append _ => S n
               | Trim => Nat.min n (Z.to_nat (MAX_HISTORY_LENGTH cfg))
               end) ops n.

End Brain.

(* ====================================================================== *)
(** ** Speech output ([speak.py]) *)
(* ====================================================================== *)

Module Speaker.
Import Py PyStr.

(** The speech engine: whether rendering a text ([engine.say] and
    [engine.runAndWait]) completes or raises, and whether [engine.stop]
    completes or raises. *)
Record Engine : Type := mkEngine {
  renders : string -> bool;
  halts : bool
}.

(** The speaker.  [started] lists the [SpeechThread] threads started so
    far, each with the text handed to it.  The backlog queue and its
    processor thread are not modelled. *)
Record Speaker : Type := mkSpeaker {
  _speaking : bool;
  _current_text : option string;
  total_utterances : Z;
  total_characters : Z;
  started : list string
}.

(** [Speaker.__init__], engine set-up apart. *)
Definition init : Speaker :=
  {| _speaking := false; _current_text := None;
     total_utterances := 0; total_characters := 0; started := [] |}.

Section WithEngine.
Variable engine : Engine.

(** [Speaker._say_thread], run from its start to the end of its [finally]:
    the statistics move only when the engine completes, the flag and the
    current text are cleared either way. *)
Definition _say_thread (sp : Speaker) (text : string) : Speaker :=
  if renders engine text then
    {| _speaking := false; _current_text := None;
       total_utterances := total_utterances sp + 1;
       total_characters := total_characters sp + len text;
       started := started sp |}
  else
    {| _speaking := false; _current_text := None;
       total_utterances := total_utterances sp;
       total_characters := total_characters sp;
       started := started sp |}.

(** [thread.start()] *)
Definition start_thread (sp : Speaker) (text : string) : Speaker :=
  {| _speaking := _speaking sp; _current_text := _current_text sp;
     total_utterances := total_utterances sp;
     total_characters := total_characters sp;
     started := (started sp ++ [text])%list |}.

(** [Speaker.say].  Without [block] the thread is started and runs later;
    with [block] the call waits for it, so its whole effect is in the
    speaker returned. *)
Definition say (sp : Speaker) (text : string) (block : bool) : Speaker :=
  if is_empty text || is_empty (strip text) then sp
  else
    let text := strip text in
    let sp := start_thread sp text in
    if block then _say_thread sp text else sp.

(** [Speaker.stop] *)
Definition stop (sp : Speaker) : Speaker :=
  if halts engine then
    {| _speaking := false; _current_text := None;
       total_utterances := total_utterances sp;
       total_characters := total_characters sp;
       started := started sp |}
  else sp.

(** [Speaker.is_speaking] *)
Definition is_speaking (sp : Speaker) : bool := _speaking sp.

End WithEngine.

End Speaker.

(* ====================================================================== *)
(** ** Skill registry ([skills.py]) and main loop ([main.py]) *)
(* ====================================================================== *)

Module Assistant.
Import Py PyStr.

(** The callables a registry entry can hold: the functions of [skills.py],
    the lambdas of its [SKILLS] table, and callables registered later, a
    function ([registered]) or a callable object that has no [__name__],
    such as a [functools.partial] ([nameless]). *)
Inductive skill_func : Type :=
| open_app
| close_app
| get_time
| get_date
| get_datetime
| control_hardware
| lambda_lights
| lambda_turn_on
| lambda_turn_off
| get_system_info
| get_battery_status
| search_web
| lambda_volume_up
| lambda_volume_down
| lambda_mute
| registered (id : nat)
| nameless (id : nat).

(** Whether [f.__name__] exists. *)
Definition has_name (f : skill_func) : bool :=
  match f with
  | nameless _ => false
  | _ => true
  end.

(** What reading [__name__] off a callable that has none raises. *)
Definition no_name : exn :=
  mkExn AttributeError "'functools.partial' object has no attribute '__name__'".

(** What calling a handler does: [Some a] is a call with the one argument
    [a], [None] a call with no argument.  The call raises, or returns a
    string, or returns [None], as a function that ends without [return]
    does; other values are outside the model. *)
Definition Handlers : Type :=
  skill_func -> option string -> result (option string).

(** The registry: a dictionary in insertion order. *)
Definition Registry : Type := list (string * skill_func).

(** [skills.SKILLS] as the module defines it. *)
Definition SKILLS : Registry :=
  [ ("open", open_app); ("launch", open_app); ("start", open_app);
    ("run", open_app); ("close", close_app); ("quit", close_app);
    ("what time", get_time); ("time", get_time);
    ("what date", get_date); ("date", get_date); ("what day", get_date);
    ("date and time", get_datetime);
    ("hardware", control_hardware); ("lights", lambda_lights);
    ("turn on", lambda_turn_on); ("turn off", lambda_turn_off);
    ("system info", get_system_info); ("battery", get_battery_status);
    ("search", search_web); ("google", search_web);
    ("volume up", lambda_volume_up); ("volume down", lambda_volume_down);
    ("mute", lambda_mute) ].

(** [skill_func in [skills.open_app, skills.close_app, skills.search_web]] *)
Definition takes_text (f : skill_func) : bool :=
  match f with
  | open_app | close_app | search_web => true
  | _ => false
  end.

(** [skill_func is skills.control_hardware] *)
Definition is_control_hardware (f : skill_func) : bool :=
  match f with control_hardware => true | _ => false end.

(** The assistant: the two components it owns and its counters.  The
    listener is the source of the text each cycle hears. *)
Record Jarvis : Type := mkJarvis {
  brain : Brain.Brain;
  speaker : Speaker.Speaker;
  running : bool;
  total_interactions : Z;
  successful_commands : Z;
  ai_responses : Z;
  errors : Z
}.

Definition set_brain (j : Jarvis) (b : Brain.Brain) : Jarvis :=
  {| brain := b; speaker := speaker j; running := running j;
     total_interactions := total_interactions j;
     successful_commands := successful_commands j;
     ai_responses := ai_responses j; errors := errors j |}.

Definition set_speaker (j : Jarvis) (sp : Speaker.Speaker) : Jarvis :=
  {| brain := brain j; speaker := sp; running := running j;
     total_interactions := total_interactions j;
     successful_commands := successful_commands j;
     ai_responses := ai_responses j; errors := errors j |}.

Definition incr_total_interactions (j : Jarvis) : Jarvis :=
  {| brain := brain j; speaker := speaker j; running := running j;
     total_interactions := total_interactions j + 1;
     successful_commands := successful_commands j;
     ai_responses := ai_responses j; errors := errors j |}.

Definition incr_successful_commands (j : Jarvis) : Jarvis :=
  {| brain := brain j; speaker := speaker j; running := running j;
     total_interactions := total_interactions j;
     successful_commands := successful_commands j + 1;
     ai_responses := ai_responses j; errors := errors j |}.

Definition incr_ai_responses (j : Jarvis) : Jarvis :=
  {| brain := brain j; speaker := speaker j; running := running j;
     total_interactions := total_interactions j;
     successful_commands := successful_commands j;
     ai_responses := ai_responses j + 1; errors := errors j |}.

Definition incr_errors (j : Jarvis) : Jarvis :=
  {| brain := brain j; speaker := speaker j; running := running j;
     total_interactions := total_interactions j;
     successful_commands := successful_commands j;
     ai_responses := ai_responses j; errors := errors j + 1 |}.

(** [JarvisAssistant.__init__], configuration check apart. *)
Definition init (prompt : string) : Jarvis :=
  {| brain := Brain.init prompt; speaker := Speaker.init; running := false;
     total_interactions := 0; successful_commands := 0;
     ai_responses := 0; errors := 0 |}.

(** The loop variables of [find_skill]. *)
Record best : Type := mkBest {
  best_match : option skill_func;
  best_keyword : option string;
  best_length : Z
}.

(** One turn of the [for keyword, func in skills.SKILLS.items()] loop. *)
Definition find_step (lowered : string) (st : best) (entry : string * skill_func) : best :=
  let (keyword, func) := entry in
  if str_in keyword lowered && (best_length st <? len keyword)
  then {| best_match := Some func; best_keyword := Some keyword;
          best_length := len keyword |}
  else st.

Definition find_scan (registry : Registry) (lowered : string) : best :=
  fold_left (find_step lowered) registry
            {| best_match := None; best_keyword := None; best_length := 0 |}.

(** [JarvisAssistant.find_skill]: the scan, then the debug line, which
    reads [best_match.__name__] whenever there is a match, then the pair. *)
Definition find_skill (registry : Registry) (text : string)
  : result (option skill_func * option string) :=
  let st := find_scan registry (lower text) in
  match best_match st with
  | Some f =>
      if has_name f then Ret (best_match st, best_keyword st) else Raise no_name
  | None => Ret (best_match st, best_keyword st)
  end.

(** What the loop variables of [find_skill] record once the entries [seen]
    have been scanned: nothing, when every entry that occurs in the text is
    the empty keyword; otherwise an entry of [seen] that occurs in the
    text, is not empty, is strictly longer than every occurring entry
    before it and at least as long as every occurring entry after it. *)
Definition scanned (lowered : string) (seen : Registry) (st : best) : Prop :=
  (best_match st = None /\ best_keyword st = None /\ best_length st = 0 /\
   forall k f, In (k, f) seen -> str_in k lowered = true -> k = EmptyString)
  \/
  (exists k f l1 l2,
      seen = (l1 ++ (k, f) :: l2)%list /\
      best_match st = Some f /\ best_keyword st = Some k /\
      best_length st = len k /\ 0 < len k /\ str_in k lowered = true /\
      (forall k' f', In (k', f') l1 -> str_in k' lowered = true -> len k' < len k) /\
      (forall k' f', In (k', f') l2 -> str_in k' lowered = true -> len k' <= len k)).

(** [command.replace(keyword, '', 1).strip().split()] *)
Definition skill_args (command keyword : string) : list string :=
  split (strip (replace_first keyword EmptyString command)).

Section WithWorld.
Variable cfg : Config.
Variable registry : Registry.
Variable handlers : Handlers.
Variable backend : Brain.Backend.
Variable engine : Speaker.Engine.

(** [JarvisAssistant.is_wake_word] *)
Definition is_wake_word (text : string) : bool :=
  if is_empty text then false
  else
    let lowered := lower text in
    existsb (fun wake_word => str_in wake_word lowered) (WAKE_WORDS cfg).

(** [JarvisAssistant.strip_wake_words] *)
Definition strip_wake_words (text : string) : string :=
  strip (fold_left (fun command wake_word => replace wake_word EmptyString command)
                   (WAKE_WORDS cfg) (lower text)).

(** The body of the [try] in [execute_skill], up to the value of [result]. *)
Definition execute_skill_try (skill : skill_func) (command keyword : string)
  : result (option string) :=
  if takes_text skill then
    match skill_args command keyword with
    | [] => Ret (Some "Please specify what to open.")
    | args => handlers skill (Some (join " " args))
    end
  else if is_control_hardware skill then
    let action := match skill_args command keyword with
                  | a :: _ => a
                  | [] => "status"
                  end in
    handlers skill (Some action)
  else handlers skill None.

(** [JarvisAssistant.execute_skill]: the first line reads
    [skill_func.__name__] outside the [try]; then the [try], which counts
    a success once [result] is there and an error on any exception. *)
Definition execute_skill (j : Jarvis) (skill : skill_func) (command keyword : string)
  : result (Jarvis * option string) :=
  if negb (has_name skill) then Raise no_name
  else
    match execute_skill_try skill command keyword with
    | Ret answer => Ret (incr_successful_commands j, answer)
    | Raise exc =>
        Ret (incr_errors j,
             Some ("I encountered an unexpected error: " ++ exn_text exc))
    end.

(** [JarvisAssistant.process_with_ai] *)
Definition process_with_ai (j : Jarvis) (command : string) : Jarvis * string :=
  let (b, r) := Brain.chat cfg backend (brain j) command in
  let j := set_brain j b in
  match r with
  | Ret response => (incr_ai_responses j, response)
  | Raise exc => (incr_errors j, "I had trouble processing that: " ++ exn_text exc)
  end.

(** The sentence [print_statistics] hands to the speaker. *)
Definition statistics_summary (j : Jarvis) : string :=
  "I've handled " ++ str_of_int (total_interactions j) ++ " interactions, " ++
  "with " ++ str_of_int (successful_commands j) ++ " skill executions " ++
  "and " ++ str_of_int (ai_responses j) ++ " AI responses.".

(** [JarvisAssistant.print_statistics] *)
Definition print_statistics (j : Jarvis) : Jarvis :=
  set_speaker j (Speaker.say engine (speaker j) (statistics_summary j) false).

(** [JarvisAssistant.show_help] *)
Definition show_help (j : Jarvis) : Jarvis :=
  set_speaker j
    (Speaker.say engine (speaker j)
       ("I've displayed the available commands. " ++
        "You can ask me to open apps, check the time, " ++
        "control hardware, or just chat with me.") false).

(** [JarvisAssistant.handle_special_commands] *)
Definition handle_special_commands (j : Jarvis) (text : string) : Jarvis * bool :=
  let lowered := lower text in
  if existsb (fun word => str_in word lowered) (STOP_WORDS cfg) then
    (set_speaker j (Speaker.stop engine (speaker j)), true)
  else if str_in "statistics" lowered || str_in "stats" lowered then
    (print_statistics j, true)
  else if str_in "clear history" lowered || str_in "forget conversation" lowered then
    let j := set_brain j (Brain.clear_history (brain j)) in
    (set_speaker j
       (Speaker.say engine (speaker j) "Conversation history cleared." false),
     true)
  else if str_in "help" lowered && str_in "jarvis" lowered then
    (show_help j, true)
  else (j, false).

(** The end of a pass: [result[:100]] for the log, which raises
    [TypeError] on [None], then [self.speaker.say(result)]. *)
Definition respond (j : Jarvis) (answer : option string) : Jarvis * result unit :=
  match answer with
  | None => (j, Raise (mkExn TypeError "'NoneType' object is not subscriptable"))
  | Some text =>
      (set_speaker j (Speaker.say engine (speaker j) text false), Ret tt)
  end.

(** The body of the [try] inside [while self.running:] in [run], [heard]
    being what [self.listener.listen()] gives when it is called: the
    assistant it leaves, and whether it ends or an exception leaves it. *)
Definition cycle_try (j : Jarvis) (heard : option string) : Jarvis * result unit :=
  if Speaker.is_speaking (speaker j) then (j, Ret tt)
  else
    match heard with
    | None => (j, Ret tt)
    | Some heard =>
        if is_empty heard then (j, Ret tt)
        else
          let (j1, special) := handle_special_commands j heard in
          if special then (j1, Ret tt)
          else if negb (is_wake_word heard) then (j1, Ret tt)
          else
            let j2 := incr_total_interactions j1 in
            let command := strip_wake_words heard in
            if is_empty command then (j2, Ret tt)
            else
              match find_skill registry command with
              | Raise e => (j2, Raise e)
              | Ret (Some skill, matched_keyword) =>
                  match execute_skill j2 skill command
                          (match matched_keyword with
                           | Some k => k
                           | None => EmptyString
                           end) with
                  | Raise e => (j2, Raise e)
                  | Ret (j3, answer) => respond j3 answer
                  end
              | Ret (None, _) =>
                  let (j3, answer) := process_with_ai j2 command in
                  respond j3 (Some answer)
              end
    end.

(** One pass through [while self.running:] in [run]: the [try], and
    [except Exception: self.errors += 1] for what leaves it.  An interrupt
    from the keyboard, and failures of the console or of starting a
    thread, are outside the model. *)
Definition cycle (j : Jarvis) (heard : option string) : Jarvis :=
  let (j', r) := cycle_try j heard in
  match r with
  | Ret _ => j'
  | Raise _ => incr_errors j'
  end.

End WithWorld.

(** The conditions under which [handle_special_commands] acts. *)
Definition has_special_phrase (cfg : Config) (text : string) : bool :=
  let lowered := lower text in
  existsb (fun word => str_in word lowered) (STOP_WORDS cfg) ||
  str_in "statistics" lowered || str_in "stats" lowered ||
  str_in "clear history" lowered || str_in "forget conversation" lowered ||
  (str_in "help" lowered && str_in "jarvis" lowered).

End Assistant.

(* ====================================================================== *)
(** ** Concrete collaborators and states used in examples *)
(* ====================================================================== *)

Module Samples.
Import Py PyStr Brain.

(** A backend reply holding the text [s]. *)
Definition reply_of (s : string) : Response :=
  mkResponse (Present (mkReplyMessage (Present s))).

(** The reply of the client when the model sends no text: content [None]. *)
Definition reply_without_content : Response :=
  mkResponse (Present (mkReplyMessage PyNone)).

Definition answers (s : string) : Backend := fun _ => Ret (reply_of s).
Definition fails (c : exn_class) (s : string) : Backend := fun _ => Raise (mkExn c s).

Definition sample_calls : list (string * Backend) :=
  [ ("hello", answers "Hello, how can I help?");
    ("what is the weather", answers "   ");
    ("tell me a joke", fails ConnectionError "connection refused");
    ("tell me a joke", fails ResponseError "model not found");
    ("again", fails OtherException "timed out");
    ("one", answers "1"); ("two", answers "2"); ("three", answers "3");
    ("four", answers "4"); ("five", answers "5"); ("six", answers "6") ].

Definition fresh_brain : Brain := init "You are Jarvis.".

Definition greeted_brain : Brain :=
  mkBrain "You are Jarvis." [mkMessage user "hi"; mkMessage assistant "Hello."] None 1.

(** An engine that renders every text, one that fails on every text. *)
Definition good_engine : Speaker.Engine := Speaker.mkEngine (fun _ => true) true.
Definition broken_engine : Speaker.Engine := Speaker.mkEngine (fun _ => false) false.

(** Handlers that all raise, and handlers that report a missing program. *)
Definition raising_handlers : Assistant.Handlers :=
  fun _ _ => Raise (mkExn OtherException "handler failed").

Definition not_found_handlers : Assistant.Handlers :=
  fun _ arg =>
    match arg with
    | Some a => Ret (Some ("Could not find " ++ a ++ ". " ++
                           "Try adding its full path to your configuration."))
    | None => Ret (Some "Hardware control is disabled.")
    end.

(** Handlers that end without a [return]. *)
Definition mute_handlers : Assistant.Handlers := fun _ _ => Ret None.

Definition fresh_jarvis : Assistant.Jarvis := Assistant.init "You are Jarvis.".

End Samples.

(* ====================================================================== *)
(** ** Words *)
(* ====================================================================== *)

Module Words.
Import PyStr.

(** A word: at least one character and no white space. *)
Definition is_word (w : string) : bool :=
  negb (is_empty w) &&
  forallb (fun c => negb (is_space c)) (list_ascii_of_string w).

End Words.

(* ====================================================================== *)
(** ** Conversation state, the other operations ([brain.py]) *)
(* ====================================================================== *)

Module BrainOps.
Import Py PyStr Brain.

(** The line feed. *)
Definition nl : string := String (ascii_of_N 10) EmptyString.

(** [sum(1 for msg in self.history if msg["role"] == r)] *)
Definition has_role (r : Role) (m : Message) : bool :=
  match r, role m with
  | system, system | user, user | assistant, assistant => true
  | _, _ => false
  end.

Definition count_role (r : Role) (h : list Message) : Z :=
  Z.of_nat (List.length (filter (has_role r) h)).

(** A history with no system message. *)
Definition clean (h : list Message) : Prop :=
  Forall (fun m => has_role system m = false) h.

(** [Brain.get_history_summary] *)
Definition get_history_summary (b : Brain) : string :=
  match history b with
  | [] => "No conversation history"
  | _ =>
      "History: " ++ str_of_int (hlen b) ++ " messages " ++
      "(" ++ str_of_int (count_role user (history b)) ++ " user, " ++
      str_of_int (count_role assistant (history b)) ++ " assistant)"
  end.

(** [Brain.set_system_prompt] *)
Definition set_system_prompt (b : Brain) (new_prompt : string) : Brain :=
  {| system_prompt := new_prompt; history := history b;
     last_topic := last_topic b; interaction_count := interaction_count b |}.

(** [str.upper] on one code point below 256, as code points: the result
    can be two characters ([0xDF]) or lie above 255 ([0xB5], [0xFF]). *)
Definition upper_char (c : ascii) : list N :=
  let n := N_of_ascii c in
  (if ((97 <=? n) && (n <=? 122)) ||
      ((224 <=? n) && (n <=? 254) && negb (n =? 247))
   then [n - 32]
   else if n =? 181 then [924]
   else if n =? 223 then [83; 83]
   else if n =? 255 then [376]
   else [n])%N.

Definition upper (s : string) : list N :=
  flat_map upper_char (list_ascii_of_string s).

Definition codes (s : string) : list N :=
  map N_of_ascii (list_ascii_of_string s).

Fixpoint codes_eqb (a b : list N) : bool :=
  match a, b with
  | [], [] => true
  | x :: a', y :: b' => (x =? y)%N && codes_eqb a' b'
  | _, _ => false
  end.

(** The prompt [get_intent] sends. *)
Definition intent_prompt (user_message : string) : string :=
  "Analyze this message and respond with only ONE word: " ++
  "'QUESTION' if asking for information, " ++
  "'COMMAND' if requesting an action, " ++
  "or 'CONVERSATION' if just chatting." ++ nl ++ nl ++
  "Message: " ++ user_message.

(** [intent if intent in ["QUESTION", "COMMAND", "CONVERSATION"] else
    "UNKNOWN"], with [intent = response.strip().upper()]. *)
Definition classify (response : string) : string :=
  let intent := upper (strip response) in
  if codes_eqb intent (codes "QUESTION") then "QUESTION"
  else if codes_eqb intent (codes "COMMAND") then "COMMAND"
  else if codes_eqb intent (codes "CONVERSATION") then "CONVERSATION"
  else "UNKNOWN".

Section WithConfig.
Variable cfg : Config.

(** [Brain.get_intent] *)
Definition get_intent (backend : Backend) (b : Brain) (user_message : string)
  : Brain * result string :=
  let (b', r) := chat cfg backend b (intent_prompt user_message) in
  (b', try_except
         (match r with
          | Ret response => Ret (classify response)
          | Raise e => Raise e
          end)
         [(is_Exception, fun _ => Ret "UNKNOWN")]).

(** [f"{k}: {v}"] for each item, joined by line feeds. *)
Definition context_str (context : list (string * string)) : string :=
  join nl (map (fun kv => fst kv ++ ": " ++ snd kv) context).

(** [Brain.chat_with_context]; the context values already as text. *)
Definition chat_with_context (backend : Backend) (b : Brain)
           (user_message : string) (context : list (string * string))
  : Brain * result string :=
  let enhanced_message :=
      user_message ++ nl ++ nl ++ "Current Context:" ++ nl ++ context_str context in
  chat cfg backend b enhanced_message.

End WithConfig.

End BrainOps.

(* ====================================================================== *)
(** ** Speech input ([listen.py]) *)
(* ====================================================================== *)

Module Listener.
Import Py PyStr.

(** What [recognize_google] does with a recording. *)
Inductive recognition : Type :=
| Transcript (text : string)
| Unintelligible
| ServiceError (msg : string)
| RecognizerCrash (e : exn).

(** What the microphone does: no speech before the timeout
    ([WaitTimeoutError]), any other exception, or a recording together
    with what the recogniser makes of it. *)
Inductive capture : Type :=
| CaptureTimeout
| CaptureError (e : exn)
| Captured (r : recognition).

Record Listener : Type := mkListener {
  is_calibrated : bool;
  total_attempts : Z;
  successful_recognitions : Z;
  failed_recognitions : Z
}.

(** [Listener.__init__], with the outcome of the calibration. *)
Definition init (calibrated : bool) : Listener :=
  {| is_calibrated := calibrated; total_attempts := 0;
     successful_recognitions := 0; failed_recognitions := 0 |}.

Definition network_words : list string :=
  ["network"; "connection"; "internet"; "timeout"].

(** [Listener._recognize_online] *)
Definition _recognize_online (r : recognition) : result (option string) :=
  match r with
  | Transcript text => Ret (Some text)
  | Unintelligible => Ret None
  | ServiceError msg =>
      let error_msg := lower msg in
      if existsb (fun keyword => str_in keyword error_msg) network_words
      then Ret (Some "Connection error: Please check your internet connection.")
      else Ret (Some ("Speech recognition service error: " ++ msg))
  | RecognizerCrash e => Raise e
  end.

(** Truth value of an optional text: [if text:]. *)
Definition truthy (text : option string) : bool :=
  match text with
  | Some s => negb (is_empty s)
  | None => false
  end.

Definition count_attempt (l : Listener) : Listener :=
  {| is_calibrated := is_calibrated l; total_attempts := total_attempts l + 1;
     successful_recognitions := successful_recognitions l;
     failed_recognitions := failed_recognitions l |}.

Definition count_success (l : Listener) : Listener :=
  {| is_calibrated := is_calibrated l; total_attempts := total_attempts l;
     successful_recognitions := successful_recognitions l + 1;
     failed_recognitions := failed_recognitions l |}.

Definition count_failure (l : Listener) : Listener :=
  {| is_calibrated := is_calibrated l; total_attempts := total_attempts l;
     successful_recognitions := successful_recognitions l;
     failed_recognitions := failed_recognitions l + 1 |}.

(** [Listener.listen], online recognition being the one in use. *)
Definition listen (l : Listener) (c : capture) : Listener * option string :=
  let l := count_attempt l in
  match c with
  | CaptureTimeout => (l, None)
  | CaptureError e => (count_failure l, Some ("Microphone error: " ++ exn_text e))
  | Captured r =>
      match _recognize_online r with
      | Ret text =>
          if truthy text then (count_success l, text) else (count_failure l, text)
      | Raise e => (count_failure l, Some ("Microphone error: " ++ exn_text e))
      end
  end.

(** The attempts that ended in a recognition or in a failure. *)
Definition counted (l : Listener) : Z :=
  successful_recognitions l + failed_recognitions l.

(** A run of [listen] calls. *)
Definition listen_all (l : Listener) (cs : list capture) : Listener :=
  fold_left (fun l c => fst (listen l c)) cs l.

Definition is_timeout (c : capture) : bool :=
  match c with CaptureTimeout => true | _ => false end.

End Listener.

(* ====================================================================== *)
(** ** Registry operations and hardware control ([skills.py]) *)
(* ====================================================================== *)

Module Skills.
Import Py PyStr Assistant.

(** [SKILLS.get(k)] *)
Fixpoint lookup (k : string) (r : Registry) : option skill_func :=
  match r with
  | [] => None
  | (k', f) :: rest => if String.eqb k k' then Some f else lookup k rest
  end.

(** [k in SKILLS] *)
Definition has_key (k : string) (r : Registry) : bool :=
  match lookup k r with Some _ => true | None => false end.

(** [SKILLS[k] = f]: an existing key keeps its place, a new one goes last. *)
Fixpoint dict_set (k : string) (f : skill_func) (r : Registry) : Registry :=
  match r with
  | [] => [(k, f)]
  | (k', f') :: rest =>
      if String.eqb k k' then (k', f) :: rest else (k', f') :: dict_set k f rest
  end.

(** [del SKILLS[k]] *)
Fixpoint dict_del (k : string) (r : Registry) : Registry :=
  match r with
  | [] => []
  | (k', f') :: rest =>
      if String.eqb k k' then rest else (k', f') :: dict_del k rest
  end.

(** [skills.register_skill] *)
Definition register_skill (keyword : string) (function : skill_func)
           (r : Registry) : Registry :=
  dict_set (lower keyword) function r.

(** [skills.unregister_skill] *)
Definition unregister_skill (keyword : string) (r : Registry) : Registry * bool :=
  let keyword_lower := lower keyword in
  if has_key keyword_lower r then (dict_del keyword_lower r, true)
  else (r, false).

(** The settings [control_hardware] reads. *)
Record HardwareConfig : Type := mkHardwareConfig {
  ENABLE_HARDWARE_CONTROL : bool;
  ESP32_IP : string;
  HARDWARE_TIMEOUT : Z
}.

(** What [requests.get(url, ...)] followed by [raise_for_status()] does: a
    response that passes, one of the exceptions of [requests] (an error
    status included, with its text), or some other exception. *)
Inductive http_outcome : Type :=
| HttpOk (status_code : Z) (text : string)
| HttpTimeout
| HttpConnectionError
| HttpRequestException (msg : string)
| HttpCrash (e : exn).

Definition Http : Type := string -> http_outcome.

Section WithHardware.
Variable hw : HardwareConfig.
Variable http : Http.

Definition hardware_url (action : string) : string :=
  "http://" ++ ESP32_IP hw ++ "/" ++ action.

(** [skills.control_hardware] *)
Definition control_hardware_action (action : string) : result string :=
  if negb (ENABLE_HARDWARE_CONTROL hw) then
    Ret "Hardware control is currently disabled."
  else
    match http (hardware_url action) with
    | HttpOk status_code text =>
        let body := strip text in
        if negb (is_empty body) then Ret body
        else Ret ("Hardware command executed successfully (status " ++
                  str_of_int status_code ++ ").")
    | HttpTimeout =>
        Ret ("Hardware did not respond within " ++
             str_of_int (HARDWARE_TIMEOUT hw) ++ " seconds.")
    | HttpConnectionError =>
        Ret ("Could not connect to hardware at " ++ ESP32_IP hw ++ ". " ++
             "Please check the IP address and network connection.")
    | HttpRequestException msg => Ret ("Hardware control failed: " ++ msg)
    | HttpCrash e => Raise e
    end.

(** A handler that returns a string, as a handler of the registry. *)
Definition returns_text (r : result string) : result (option string) :=
  match r with
  | Ret s => Ret (Some s)
  | Raise e => Raise e
  end.

(** The handlers of the hardware entries of [SKILLS], the others left to
    [base]: [control_hardware] itself, called with an action or with none
    (its default is ["status"]), and the three lambdas, which take no
    argument. *)
Definition hardware_handlers (base : Handlers) : Handlers :=
  fun f arg =>
    match f, arg with
    | control_hardware, Some action => returns_text (control_hardware_action action)
    | control_hardware, None => returns_text (control_hardware_action "status")
    | lambda_lights, None => returns_text (control_hardware_action "lights")
    | lambda_turn_on, None => returns_text (control_hardware_action "on")
    | lambda_turn_off, None => returns_text (control_hardware_action "off")
    | (lambda_lights | lambda_turn_on | lambda_turn_off), Some _ =>
        Raise (mkExn TypeError
                     "<lambda>() takes 0 positional arguments but 1 was given")
    | _, _ => base f arg
    end.

End WithHardware.

End Skills.

(* ====================================================================== *)
(** ** Speech output, rate and backlog ([speak.py]) *)
(* ====================================================================== *)

Module SpeakerOps.
Import Py PyStr Speaker.

(** The rate [Speaker.adjust_rate] sets, from the engine's current one. *)
Definition adjust_rate (current_rate change : Z) : Z :=
  Z.max 50 (Z.min 300 (current_rate + change)).

(** A run of [adjust_rate] calls from the rate [current_rate]. *)
Definition adjust_rate_all (current_rate : Z) (changes : list Z) : Z :=
  fold_left adjust_rate changes current_rate.

(** A speaker with its backlog: the texts waiting in [_speech_queue],
    oldest first, the [_queue_active] flag, and whether the processor
    thread [_queue_thread] exists and is alive.

    The definitions below follow the calling thread.  A live processor
    thread ([_process_queue]) takes texts off the same queue and speaks
    them, with nothing that orders its [get] against the caller; its steps
    are not part of these definitions, which give the state after a call
    only when [queue_thread_alive] is [false]. *)
Record Queued : Type := mkQueued {
  speaker_of : Speaker;
  _speech_queue : list string;
  _queue_active : bool;
  queue_thread_alive : bool
}.

(** The loop of [Speaker.clear_queue]: one [get_nowait] per turn, with
    no other thread taking from the queue. *)
Fixpoint drain (queue : list string) (count : Z) : list string * Z :=
  match queue with
  | [] => ([], count)
  | _ :: rest => drain rest (count + 1)
  end.

(** [Speaker.clear_queue] *)
Definition clear_queue (q : Queued) : Queued * Z :=
  let (queue, count) := drain (_speech_queue q) 0 in
  ({| speaker_of := speaker_of q; _speech_queue := queue;
      _queue_active := _queue_active q;
      queue_thread_alive := queue_thread_alive q |}, count).

Section WithEngine.
Variable engine : Engine.

(** [Speaker.say_immediately]: [stop], [clear_queue], [say], as the
    calling thread runs them when no processor thread is alive. *)
Definition say_immediately (q : Queued) (text : string) : Queued :=
  let q1 := {| speaker_of := stop engine (speaker_of q);
               _speech_queue := _speech_queue q;
               _queue_active := _queue_active q;
               queue_thread_alive := queue_thread_alive q |} in
  let (q2, _) := clear_queue q1 in
  {| speaker_of := say engine (speaker_of q2) text false;
     _speech_queue := _speech_queue q2;
     _queue_active := _queue_active q2;
     queue_thread_alive := queue_thread_alive q2 |}.

End WithEngine.

End SpeakerOps.

(* ====================================================================== *)
(** ** The loop with its listener ([main.py]) *)
(* ====================================================================== *)

Module Loop.
Import Py PyStr Assistant.

(** What one pass of the loop meets outside the program.  The speech
    threads run beside the loop: [speech] is what they have done to the
    speaker's state (the speaking flag, the current text, the statistics)
    since the pass before. *)
Record World : Type := mkWorld {
  registry : Registry;
  handlers : Handlers;
  backend : Brain.Backend;
  engine : Speaker.Engine;
  microphone : Listener.capture;
  speech : Speaker.Speaker -> Speaker.Speaker
}.

Definition State : Type := (Jarvis * Listener.Listener)%type.

(** One pass through [while self.running:] with the listener: nothing is
    heard while the speaker speaks, otherwise [listen] is called and the
    rest of the pass works on what it returns. *)
Definition loop_body (cfg : Config) (s : State) (w : World) : State :=
  let (j, l) := s in
  let j := set_speaker j (speech w (speaker j)) in
  if Speaker.is_speaking (speaker j) then (j, l)
  else
    let (l', heard) := Listener.listen l (microphone w) in
    (cycle cfg (registry w) (handlers w) (backend w) (engine w) j heard, l').

Definition run_loop (cfg : Config) (s : State) (ws : list World) : State :=
  fold_left (loop_body cfg) ws s.

(** The commands answered: by a skill or by the model. *)
Definition answered (j : Jarvis) : Z :=
  successful_commands j + ai_responses j.

(** The counters and [running] are the same in [j'] as in [j]. *)
Definition same_counters (j j' : Jarvis) : Prop :=
  total_interactions j' = total_interactions j /\
  successful_commands j' = successful_commands j /\
  ai_responses j' = ai_responses j /\
  errors j' = errors j /\
  running j' = running j.

(** The threads started by [sp'] are those of [sp], or those and one more,
    for a text that is stripped and not empty. *)
Definition one_more (sp sp' : Speaker.Speaker) : Prop :=
  Speaker.started sp' = Speaker.started sp \/
  exists t, Speaker.started sp' = (Speaker.started sp ++ [t])%list /\
            strip t = t /\ is_empty t = false.

(** What one pass does to the assistant, case by case. *)
Inductive pass (cfg : Config) (backend : Brain.Backend) : Jarvis -> Jarvis -> Prop :=
| pass_idle (j : Jarvis) : pass cfg backend j j
| pass_special (j j' : Jarvis) :
    same_counters j j' ->
    (brain j' = brain j \/ brain j' = Brain.clear_history (brain j)) ->
    one_more (speaker j) (speaker j') ->
    pass cfg backend j j'
| pass_wake_only (j j' : Jarvis) :
    total_interactions j' = total_interactions j + 1 ->
    answered j' = answered j -> errors j' = errors j ->
    brain j' = brain j -> speaker j' = speaker j ->
    pass cfg backend j j'
| pass_command (j j' : Jarvis) (command : string) :
    total_interactions j' = total_interactions j + 1 ->
    0 <= answered j' - answered j <= 1 ->
    0 <= errors j' - errors j <= 1 ->
    (brain j' = brain j \/
     brain j' = fst (Brain.chat cfg backend (brain j) command)) ->
    one_more (speaker j) (speaker j') ->
    pass cfg backend j j'.

End Loop.

(* ====================================================================== *)
(** ** More concrete collaborators used in examples *)
(* ====================================================================== *)

Module MoreSamples.
Import Py PyStr Samples.

(** A configuration whose only wake word is written with a capital. *)
Definition capital_config : Config :=
  {| WAKE_WORDS := ["Jarvis"]; STOP_WORDS := ["stop"];
     MAX_HISTORY_LENGTH := 10; ENABLE_CONTEXT := true |}.

(** The hardware settings [config.py] takes when the environment sets none. *)
Definition default_hardware : Skills.HardwareConfig :=
  {| Skills.ENABLE_HARDWARE_CONTROL := true;
     Skills.ESP32_IP := "192.168.1.50";
     Skills.HARDWARE_TIMEOUT := 3 |}.

(** A device that never answers, and one that acknowledges with no body. *)
Definition silent_device : Skills.Http := fun _ => Skills.HttpTimeout.
Definition terse_device : Skills.Http := fun _ => Skills.HttpOk 200 "  ".

(** Two texts left in the queue when the processor thread was stopped. *)
Definition stopped_backlog : SpeakerOps.Queued :=
  {| SpeakerOps.speaker_of := Speaker.init;
     SpeakerOps._speech_queue := ["first"; "second"];
     SpeakerOps._queue_active := false;
     SpeakerOps.queue_thread_alive := false |}.

Definition sample_world (heard : Listener.capture) : Loop.World :=
  {| Loop.registry := Assistant.SKILLS;
     Loop.handlers := not_found_handlers;
     Loop.backend := answers "At your service.";
     Loop.engine := good_engine;
     Loop.microphone := heard;
     Loop.speech := fun sp => sp |}.

Definition sample_worlds : list Loop.World :=
  [ sample_world Listener.CaptureTimeout;
    sample_world (Listener.Captured (Listener.Transcript "what time"));
    sample_world (Listener.Captured (Listener.Transcript "Jarvis open notepad"));
    sample_world (Listener.Captured Listener.Unintelligible);
    sample_world (Listener.Captured (Listener.Transcript "hey Jarvis tell me a joke"));
    sample_world (Listener.Captured (Listener.Transcript "jarvis"));
    sample_world (Listener.CaptureError (mkExn OtherException "no device")) ].

End MoreSamples.

(* ====================================================================== *)
(** * Properties *)
(* ====================================================================== *)

(** ** Strings *)

Module PyStrFacts.
Import PyStr.

Example lower_mixed : lower "Hey JARVIS, What Time?" = "hey jarvis, what time?".
Proof. reflexivity. Qed.

Example str_in_inner : str_in "time" "what time is it" = true.
Proof. reflexivity. Qed.

Example str_in_absent : str_in "date" "what time is it" = false.
Proof. reflexivity. Qed.

Example replace_all_occurrences :
  replace "jarvis" EmptyString "jarvis tell jarvis a joke" = " tell  a joke".
Proof. reflexivity. Qed.

Example replace_first_only :
  replace_first "open" EmptyString "open the open door" = " the open door".
Proof. reflexivity. Qed.

Example strip_both_sides : strip "   open  chrome  " = "open  chrome".
Proof. reflexivity. Qed.

Example split_runs : split "  open   google chrome " = ["open"; "google"; "chrome"].
Proof. reflexivity. Qed.

Example join_words : join " " ["google"; "chrome"] = "google chrome".
Proof. reflexivity. Qed.

Example str_of_int_12 : str_of_int 12 = "12".
Proof. reflexivity. Qed.

Example str_in_empty_keyword : str_in EmptyString "abc" = true.
Proof. reflexivity. Qed.

Example replace_empty_pattern : replace EmptyString EmptyString "abc" = "abc".
Proof. reflexivity. Qed.

Example lower_latin1 :
  lower (String (ascii_of_N 201) "COLE") = String (ascii_of_N 233) "cole".
Proof. reflexivity. Qed.

Lemma append_empty_r (s : string) : s ++ EmptyString = s.
Proof. induction s as [|c s IH]; simpl; [reflexivity | now rewrite IH]. Qed.

Lemma append_assoc (s1 s2 s3 : string) : (s1 ++ s2) ++ s3 = s1 ++ (s2 ++ s3).
Proof. induction s1 as [|c s1 IH]; simpl; [reflexivity | now rewrite IH]. Qed.

Lemma length_append (s1 s2 : string) :
  String.length (s1 ++ s2) = (String.length s1 + String.length s2)%nat.
Proof. induction s1 as [|c s1 IH]; simpl; [reflexivity | now rewrite IH]. Qed.

(** [String.prefix] decides "starts with". *)
Lemma prefix_iff (k s : string) :
  String.prefix k s = true <-> exists post, s = k ++ post.
Proof.
  revert k; induction s as [|c s IH]; intros [|a k]; simpl.
  - split; [exists EmptyString; reflexivity | reflexivity].
  - split; [discriminate | intros [post H]; discriminate].
  - split; [exists (String c s); reflexivity | reflexivity].
  - destruct (ascii_dec a c) as [->|Hne].
    + rewrite IH. split; intros [post H]; exists post.
      * now rewrite H.
      * now inversion H.
    + split; [discriminate | intros [post H]; inversion H; congruence].
Qed.

(** [k in s] holds exactly when [k] occurs in [s] as a contiguous block. *)
Lemma str_in_iff (k s : string) : str_in k s = true <-> substring_of k s.
Proof.
  unfold substring_of. induction s as [|c s IH].
  - cbn [str_in]. rewrite orb_false_r, prefix_iff. split.
    + intros [post H]. exists EmptyString, post. exact H.
    + intros [[|a pre] [post H]]; [exists post; exact H | discriminate].
  - cbn [str_in]. rewrite orb_true_iff, prefix_iff, IH. split.
    + intros [[post H] | [pre [post H]]].
      * exists EmptyString, post. exact H.
      * exists (String c pre), post. simpl. now rewrite H.
    + intros [[|a pre] [post H]].
      * left. exists post. exact H.
      * right. exists pre, post. now inversion H.
Qed.

Lemma len_nonneg (s : string) : 0 <= len s.
Proof. unfold len. lia. Qed.

Lemma len_zero_empty (s : string) : len s = 0 -> s = EmptyString.
Proof. destruct s; [reflexivity | unfold len; simpl; lia]. Qed.

Lemma is_empty_true (s : string) : is_empty s = true <-> s = EmptyString.
Proof. destruct s; simpl; split; congruence. Qed.

(** A text with nothing but white space, the empty text included. *)
Lemma lstrip_blank (s : string) :
  forallb is_space (list_ascii_of_string s) = true -> lstrip s = EmptyString.
Proof.
  induction s as [|c s IH]; simpl; [reflexivity|].
  intros H. apply andb_true_iff in H as [Hc Hs]. rewrite Hc. auto.
Qed.

Lemma strip_blank (s : string) :
  forallb is_space (list_ascii_of_string s) = true -> strip s = EmptyString.
Proof. intros H. unfold strip. now rewrite lstrip_blank. Qed.

Lemma lstrip_not_blank (s : string) :
  forallb is_space (list_ascii_of_string s) = false ->
  exists c r, lstrip s = String c r /\ is_space c = false.
Proof.
  induction s as [|c s IH]; simpl; [discriminate|].
  destruct (is_space c) eqn:Hc; simpl; [exact IH|].
  intros _. exists c, s. auto.
Qed.

Lemma rstrip_head_kept (c : ascii) (r : string) :
  is_space c = false -> exists r', rstrip (String c r) = String c r'.
Proof. intros H. simpl. rewrite H. simpl. eauto. Qed.

(** [strip] leaves the empty string exactly on blank texts. *)
Lemma strip_empty_iff (s : string) :
  strip s = EmptyString <-> forallb is_space (list_ascii_of_string s) = true.
Proof.
  split; [|apply strip_blank].
  destruct (forallb is_space (list_ascii_of_string s)) eqn:Hb; [reflexivity|].
  destruct (lstrip_not_blank s Hb) as (c & r & Hl & Hc).
  unfold strip. rewrite Hl.
  destruct (rstrip_head_kept c r Hc) as [r' ->]. discriminate.
Qed.

End PyStrFacts.

(** ** Conversation state *)

Module BrainFacts.
Import Py PyStr Brain.

Section WithConfig.
Variable cfg : Config.

Lemma trim_history_trimmed (b : Brain) :
  history (_trim_history cfg b) = trimmed cfg (history b).
Proof.
  unfold _trim_history, trimmed.
  destruct (0 <? Z.of_nat (List.length (history b)) - MAX_HISTORY_LENGTH cfg) eqn:E.
  - reflexivity.
  - apply Z.ltb_ge in E.
    replace (Z.to_nat _) with 0%nat by lia. reflexivity.
Qed.

Lemma trimmed_length (h : list Message) :
  0 <= MAX_HISTORY_LENGTH cfg ->
  Z.of_nat (List.length (trimmed cfg h)) <= MAX_HISTORY_LENGTH cfg.
Proof. intros H. unfold trimmed. rewrite length_skipn. lia. Qed.

(** One trim keeps the newest entries, as many as the bound allows. *)
Lemma trim_history_most_recent (b : Brain) :
  history (_trim_history cfg b)
  = most_recent (Nat.min (List.length (history b))
                         (Z.to_nat (MAX_HISTORY_LENGTH cfg)))
                (history b).
Proof.
  rewrite trim_history_trimmed. unfold trimmed, most_recent.
  destruct (Z_lt_le_dec (MAX_HISTORY_LENGTH cfg) 0) as [Hneg | Hpos].
  - rewrite !skipn_all2; [reflexivity | lia | lia].
  - f_equal. lia.
Qed.

(** A negative bound cannot be met: the trim then drops every entry. *)
Lemma trimmed_negative_bound (h : list Message) :
  MAX_HISTORY_LENGTH cfg < 0 -> trimmed cfg h = [].
Proof. intros H. unfold trimmed. apply skipn_all2. lia. Qed.

Lemma trimmed_suffix (h : list Message) :
  exists pre, h = (pre ++ trimmed cfg h)%list.
Proof.
  unfold trimmed.
  exists (firstn (Z.to_nat (Z.of_nat (List.length h) - MAX_HISTORY_LENGTH cfg)) h).
  symmetry. apply firstn_skipn.
Qed.

(** With room for one message, trimming keeps the newest. *)
Lemma trimmed_keeps_last (h : list Message) (m : Message) :
  0 < MAX_HISTORY_LENGTH cfg ->
  exists h', trimmed cfg (h ++ [m]) = (h' ++ [m])%list.
Proof.
  intros H. unfold trimmed.
  rewrite length_app. simpl List.length.
  rewrite skipn_app.
  replace (Z.to_nat _ - List.length h)%nat with 0%nat by lia.
  simpl. eauto.
Qed.

Lemma add_user_history (b : Brain) (m : string) :
  history (add_user_message cfg b m) =
  trimmed cfg (history b ++ [mkMessage user m]).
Proof. unfold add_user_message. now rewrite trim_history_trimmed. Qed.

Lemma add_user_count (b : Brain) (m : string) :
  interaction_count (add_user_message cfg b m) = interaction_count b + 1.
Proof.
  unfold add_user_message, _trim_history. simpl.
  destruct (0 <? _); reflexivity.
Qed.

Lemma trim_history_length (b : Brain) :
  0 <= MAX_HISTORY_LENGTH cfg ->
  hlen (_trim_history cfg b) <= MAX_HISTORY_LENGTH cfg.
Proof.
  intros H. unfold hlen. rewrite trim_history_trimmed. now apply trimmed_length.
Qed.

(** The two brains [chat] can leave: the one of STEP 1, or that one with
    the reply appended and the history trimmed again. *)
Lemma chat_brain_shape (backend : Backend) (b : Brain) (m : string) :
  let b2 := add_user_message cfg b m in
  fst (chat cfg backend b m) = b2 \/
  exists reply,
    snd (chat cfg backend b m) = Ret reply /\ is_empty reply = false /\
    fst (chat cfg backend b m) =
    _trim_history cfg (append_message b2 (mkMessage assistant reply)).
Proof.
  intros b2. unfold chat, chat_try. fold b2.
  destruct (build_messages cfg b2) as [messages|e]; [|now left].
  destruct (backend messages) as [response|e]; [|now left].
  destruct (get_content response) as [content|e]; [|now left].
  destruct (is_empty (strip content)) eqn:E; [now left|].
  right. exists (strip content). cbn [fst snd try_except].
  auto.
Qed.

Lemma chat_length (backend : Backend) (b : Brain) (m : string) :
  0 <= MAX_HISTORY_LENGTH cfg ->
  hlen (fst (chat cfg backend b m)) <= MAX_HISTORY_LENGTH cfg.
Proof.
  intros H.
  destruct (chat_brain_shape backend b m) as [-> | (reply & _ & _ & ->)].
  - unfold add_user_message. now apply trim_history_length.
  - now apply trim_history_length.
Qed.

(** When the request cannot be built or the backend raises, the exception
    meets the first [except] clause and nothing else. *)
Lemma chat_backend_raises (backend : Backend) (b : Brain) (m : string)
      (messages : list Message) (e : exn) :
  build_messages cfg (add_user_message cfg b m) = Ret messages ->
  backend messages = Raise e ->
  chat cfg backend b m = (add_user_message cfg b m, on_ollama_exc e).
Proof. intros Hb He. unfold chat, chat_try. now rewrite Hb, He. Qed.

Lemma chat_empty_reply (backend : Backend) (b : Brain) (m : string)
      (messages : list Message) (response : Response) (content : string) :
  build_messages cfg (add_user_message cfg b m) = Ret messages ->
  backend messages = Ret response ->
  get_content response = Ret content ->
  strip content = EmptyString ->
  chat cfg backend b m = (add_user_message cfg b m, Ret clarification).
Proof. intros Hb Hr Hc He. unfold chat, chat_try. now rewrite Hb, Hr, Hc, He. Qed.

(** A reply with [None] where the text should be: the [AttributeError]
    meets the first [except] clause like an exception of the backend. *)
Lemma chat_reply_raises (backend : Backend) (b : Brain) (m : string)
      (messages : list Message) (response : Response) (e : exn) :
  build_messages cfg (add_user_message cfg b m) = Ret messages ->
  backend messages = Ret response ->
  get_content response = Raise e ->
  chat cfg backend b m = (add_user_message cfg b m, on_ollama_exc e).
Proof. intros Hb Hr Hc. unfold chat, chat_try. now rewrite Hb, Hr, Hc. Qed.

Lemma history_last_app (b : Brain) (h : list Message) (m : Message) :
  history b = (h ++ [m])%list -> history_last b = Ret m.
Proof. intros H. unfold history_last. now rewrite H, rev_app_distr. Qed.

(** With room for one message the request always can be built, and it ends
    with the user message just appended. *)
Lemma build_messages_ok (b : Brain) (m : string) :
  0 < MAX_HISTORY_LENGTH cfg ->
  exists pre,
    build_messages cfg (add_user_message cfg b m) =
    Ret (pre ++ [mkMessage user m])%list.
Proof.
  intros H.
  destruct (trimmed_keeps_last (history b) (mkMessage user m) H) as [h' Hh].
  rewrite <- add_user_history in Hh.
  unfold build_messages. destruct (ENABLE_CONTEXT cfg).
  - exists ([mkMessage system (system_prompt (add_user_message cfg b m))] ++ h')%list.
    now rewrite Hh, app_assoc.
  - rewrite (history_last_app _ _ _ Hh). eexists. reflexivity.
Qed.

(** The second [except Exception] clause of [chat] is never reached: the
    first one matches every exception. *)
Lemma second_except_clause_is_dead (r : result string) :
  try_except r [(is_Exception, on_ollama_exc); (is_Exception, on_unexpected)]
  = try_except r [(is_Exception, on_ollama_exc)].
Proof. destruct r; reflexivity. Qed.

(** An exception that is neither a backend error nor a connection error
    leaves [chat]. *)
Lemma chat_reraises (backend : Backend) (b : Brain) (m : string)
      (messages : list Message) (e : exn) :
  build_messages cfg (add_user_message cfg b m) = Ret messages ->
  backend messages = Raise e ->
  is_ResponseError e = false -> is_ConnectionError e = false ->
  snd (chat cfg backend b m) = Raise e.
Proof.
  intros Hb He H1 H2. rewrite (chat_backend_raises _ _ _ _ _ Hb He).
  unfold on_ollama_exc. now rewrite H1, H2.
Qed.

Lemma unbounded_suffix (ops : list hist_op) :
  forall (b : Brain) (full pre : list Message),
    full = (pre ++ history b)%list ->
    exists pre', unbounded full ops = (pre' ++ history (run_ops cfg b ops))%list.
Proof.
  induction ops as [|[m|] ops IH]; intros b full pre Hfull.
  - exists pre. exact Hfull.
  - cbn [unbounded run_ops fold_left apply_op].
    apply (IH (append_message b (m)) _ pre).
    cbn. now rewrite Hfull, app_assoc.
  - cbn [unbounded run_ops fold_left apply_op].
    destruct (trimmed_suffix (history b)) as [pre2 Hpre2].
    apply (IH (_trim_history cfg b) _ (pre ++ pre2)%list).
    rewrite trim_history_trimmed, <- app_assoc, <- Hpre2. exact Hfull.
Qed.

Lemma most_recent_suffix {A} (pre l : list A) :
  most_recent (List.length l) (pre ++ l) = l.
Proof.
  unfold most_recent. rewrite length_app.
  replace (List.length pre + List.length l - List.length l)%nat
    with (List.length pre) by lia.
  now rewrite skipn_app, skipn_all, Nat.sub_diag.
Qed.

End WithConfig.

End BrainFacts.

Module BrainProps.
Import Py PyStr Brain BrainFacts Samples.

Example sample_calls_fill_history :
  map hlen (chat_trace default_config fresh_brain sample_calls)
  = [2; 3; 4; 5; 6; 8; 10; 10; 10; 10; 10].
Proof. reflexivity. Qed.

(** The reply object of the client with content [None]: [chat] raises,
    with the brain of STEP 1. *)
Example chat_reply_without_content_raises :
  chat default_config (fun _ => Ret reply_without_content) fresh_brain "hello"
  = (add_user_message default_config fresh_brain "hello",
     Raise (mkExn AttributeError "'NoneType' object has no attribute 'strip'")).
Proof. reflexivity. Qed.

Example trim_drops_from_the_front :
  let m := mkMessage user in
  let cfg := mkConfig [] [] 2 true in
  history (_trim_history cfg (mkBrain "p" [m "a"; m "b"; m "c"] None 3))
  = [m "b"; m "c"].
Proof. reflexivity. Qed.

(** C1. History length invariant.  With a bound that a list length can
    meet ([0 <= MAX_HISTORY_LENGTH]), after every call of a run of [chat]
    calls, whatever the backend does at each of them (a reply, an empty
    reply, an exception of any class) and from any starting brain, the
    history has at most [MAX_HISTORY_LENGTH] entries; and the brain a call
    leaves is the one after the user message was appended and the history
    trimmed, or that one with the reply appended and the history trimmed
    once more. *)
Theorem history_length_invariant (cfg : Config)
        (Hmax : 0 <= MAX_HISTORY_LENGTH cfg) :
  (forall (b : Brain) (calls : list (string * Backend)),
      Forall (fun b' => hlen b' <= MAX_HISTORY_LENGTH cfg)
             (chat_trace cfg b calls)) /\
  (forall (backend : Backend) (b : Brain) (m : string),
      let b1 := append_message b (mkMessage user m) in
      let b2 := add_user_message cfg b m in
      history b2 = history (_trim_history cfg b1) /\
      (fst (chat cfg backend b m) = b2 \/
       exists reply,
         snd (chat cfg backend b m) = Ret reply /\
         fst (chat cfg backend b m) =
         _trim_history cfg (append_message b2 (mkMessage assistant reply)))).
Proof.
  split.
  - intros b calls. revert b.
    induction calls as [|[m backend] calls IH]; intros b; cbn [chat_trace].
    + constructor.
    + constructor; [now apply chat_length | apply IH].
  - intros backend b m b1 b2. split.
    + unfold b2, b1. now rewrite add_user_history, trim_history_trimmed.
    + destruct (chat_brain_shape cfg backend b m) as [H | (reply & H1 & _ & H2)].
      * now left.
      * right. now exists reply.
Qed.

Lemma history_length_invariant_witness :
  0 <= MAX_HISTORY_LENGTH default_config /\
  Forall (fun b' => hlen b' <= 10)
         (chat_trace default_config fresh_brain sample_calls).
Proof.
  split; [simpl; lia|].
  apply (proj1 (history_length_invariant default_config ltac:(simpl; lia))).
Defined.

(** C2, at an input where it fails.  The backend call raises an exception
    that is neither a backend error nor a connection error (a timeout,
    say): [chat] lets it out.  The first [except Exception] clause takes
    every exception and raises this one again from inside its own body,
    where the second clause of the same [try] cannot take it. *)
Theorem chat_unexpected_error_propagates :
  snd (chat default_config (fails OtherException "timed out")
            fresh_brain "hello")
  = Raise (mkExn OtherException "timed out").
Proof. reflexivity. Qed.

(** C5. Eviction order.  After any sequence of appends and trims the
    history kept is the most recent [len(history)] messages of the history
    the same appends build when nothing is ever dropped; and that length is
    fixed by the mutations: an append keeps every entry and puts the new
    one last, a trim keeps exactly the newest [MAX_HISTORY_LENGTH] entries
    of a longer history (all of a shorter one, none under a negative
    bound), so what is dropped is always the oldest. *)
Theorem eviction_keeps_most_recent (cfg : Config) (b : Brain) (ops : list hist_op) :
  history (run_ops cfg b ops) =
  most_recent (List.length (history (run_ops cfg b ops)))
              (unbounded (history b) ops) /\
  List.length (history (run_ops cfg b ops))
  = retained_length cfg (List.length (history b)) ops /\
  history (run_ops cfg b ops)
  = most_recent (retained_length cfg (List.length (history b)) ops)
                (unbounded (history b) ops) /\
  history (_trim_history cfg b)
  = most_recent (Nat.min (List.length (history b))
                         (Z.to_nat (MAX_HISTORY_LENGTH cfg)))
                (history b) /\
  (forall m, history (apply_op cfg b (Append m)) = (history b ++ [m])%list).
Proof.
  assert (Hsuffix : history (run_ops cfg b ops)
                    = most_recent (List.length (history (run_ops cfg b ops)))
                                  (unbounded (history b) ops)).
  { destruct (unbounded_suffix cfg ops b (history b) [] eq_refl) as [pre ->].
    symmetry. apply most_recent_suffix. }
  assert (Hlength : List.length (history (run_ops cfg b ops))
                    = retained_length cfg (List.length (history b)) ops).
  { clear Hsuffix. revert b. unfold run_ops, retained_length.
    induction ops as [|[m|] ops IH]; intros b; cbn [fold_left]; [reflexivity| |].
    - rewrite IH. cbn [apply_op append_message set_history history].
      rewrite length_app. cbn [List.length]. f_equal. lia.
    - rewrite IH. cbn [apply_op]. rewrite trim_history_trimmed.
      unfold trimmed. rewrite length_skipn. f_equal. lia. }
  split; [exact Hsuffix | split; [exact Hlength | split; [|split]]].
  - rewrite <- Hlength. exact Hsuffix.
  - apply trim_history_most_recent.
  - reflexivity.
Qed.

(** With a bound of 2, a history of three loses its oldest entry, and
    after two more appends and a trim the two newest are kept. *)
Example eviction_on_three :
  let m := mkMessage user in
  let cfg := mkConfig [] [] 2 true in
  let b := mkBrain "p" [m "a"; m "b"; m "c"] None 3 in
  history (run_ops cfg b [Trim]) = [m "b"; m "c"] /\
  history (run_ops cfg b [Append (m "d"); Append (m "e"); Trim]) = [m "d"; m "e"] /\
  retained_length cfg 3 [Append (m "d"); Append (m "e"); Trim] = 2%nat.
Proof. repeat split. Qed.

(** C6. Empty reply.  When the backend is reached and the text of its
    reply is empty or only white space (a reply dictionary without the
    message or the content key has the empty text), [chat] returns the
    fixed clarification string as a value, and the brain is the one left by
    STEP 1: the history is the trimmed history with the user message, and
    every entry of it was there before the call or is that user message,
    so no assistant message was appended. *)
Theorem empty_reply_clarification (cfg : Config) (backend : Backend) (b : Brain)
        (m : string) (messages : list Message) (response : Response)
        (content : string)
        (Hreq : build_messages cfg (add_user_message cfg b m) = Ret messages)
        (Hreply : backend messages = Ret response)
        (Hcontent : get_content response = Ret content)
        (Hblank : forallb is_space (list_ascii_of_string content) = true) :
  snd (chat cfg backend b m) = Ret clarification /\
  fst (chat cfg backend b m) = add_user_message cfg b m /\
  history (fst (chat cfg backend b m)) = trimmed cfg (history b ++ [mkMessage user m]) /\
  (forall m', In m' (history (fst (chat cfg backend b m))) ->
              In m' (history b) \/ m' = mkMessage user m).
Proof.
  apply PyStrFacts.strip_blank in Hblank.
  rewrite (chat_empty_reply cfg _ _ _ _ _ _ Hreq Hreply Hcontent Hblank).
  cbn [fst snd].
  repeat split; [apply add_user_history|].
  intros m' Hin. rewrite add_user_history in Hin.
  destruct (trimmed_suffix cfg (history b ++ [mkMessage user m])) as [pre Hpre].
  assert (Hin' : In m' (history b ++ [mkMessage user m])).
  { rewrite Hpre. apply in_or_app. now right. }
  apply in_app_or in Hin' as [H | [H | []]]; auto.
Qed.

Lemma empty_reply_clarification_witness :
  snd (chat default_config (answers "  ") fresh_brain "hello") = Ret clarification /\
  history (fst (chat default_config (answers "  ") fresh_brain "hello"))
  = [mkMessage user "hello"].
Proof.
  destruct (empty_reply_clarification default_config (answers "  ") fresh_brain
              "hello"
              [mkMessage system "You are Jarvis."; mkMessage user "hello"]
              (reply_of "  ") "  " eq_refl eq_refl eq_refl eq_refl)
    as (H1 & _ & H3 & _).
  split; [exact H1 | exact H3].
Defined.

(** C9. The user message stays after a failure.  With room for one message
    ([0 < MAX_HISTORY_LENGTH]): the request sent to the backend ends with
    the user message, which means it was appended before the backend was
    contacted; and when the backend raises a backend error or a connection
    error, or replies with no text, [chat] returns a string and leaves the
    brain of STEP 1, whose newest history entry is the user message and
    whose interaction count is one more than before. *)
Theorem user_message_kept_on_failure (cfg : Config) (backend : Backend)
        (b : Brain) (m : string) (messages : list Message)
        (Hmax : 0 < MAX_HISTORY_LENGTH cfg)
        (Hreq : build_messages cfg (add_user_message cfg b m) = Ret messages)
        (Hdiag : is_diagnostic (backend messages) = true) :
  (exists pre, messages = (pre ++ [mkMessage user m])%list) /\
  (exists s, chat cfg backend b m = (add_user_message cfg b m, Ret s)) /\
  history_last (add_user_message cfg b m) = Ret (mkMessage user m) /\
  interaction_count (add_user_message cfg b m) = interaction_count b + 1.
Proof.
  split; [|split; [|split]].
  - destruct (build_messages_ok cfg b m Hmax) as [pre Hpre].
    exists pre. congruence.
  - unfold is_diagnostic in Hdiag.
    destruct (backend messages) as [response|e] eqn:Hb.
    + destruct (get_content response) as [content|e] eqn:Hc; [|discriminate].
      apply PyStrFacts.is_empty_true in Hdiag.
      exists clarification.
      now apply (chat_empty_reply cfg _ _ _ messages response content).
    + rewrite (chat_backend_raises cfg _ _ _ _ _ Hreq Hb).
      unfold on_ollama_exc.
      destruct (is_ResponseError e); [eexists; reflexivity|].
      simpl in Hdiag. rewrite Hdiag. eexists; reflexivity.
  - destruct (trimmed_keeps_last cfg (history b) (mkMessage user m) Hmax) as [h' Hh].
    rewrite <- add_user_history in Hh. exact (history_last_app _ _ _ Hh).
  - apply add_user_count.
Qed.

Lemma user_message_kept_on_failure_witness :
  (exists s, chat default_config (fails ConnectionError "connection refused")
                  greeted_brain "open the pod bay doors"
             = (add_user_message default_config greeted_brain "open the pod bay doors",
                Ret s)) /\
  history_last (add_user_message default_config greeted_brain "open the pod bay doors")
  = Ret (mkMessage user "open the pod bay doors").
Proof.
  destruct (user_message_kept_on_failure default_config
              (fails ConnectionError "connection refused") greeted_brain
              "open the pod bay doors"
              [mkMessage system "You are Jarvis."; mkMessage user "hi";
               mkMessage assistant "Hello.";
               mkMessage user "open the pod bay doors"]
              ltac:(simpl; lia) eq_refl eq_refl) as (_ & H2 & H3 & _).
  split; [exact H2 | exact H3].
Defined.

End BrainProps.

(** ** Speech output *)

Module SpeakerProps.
Import Py PyStr Speaker Samples.

Example say_starts_a_thread :
  started (say good_engine init "  Jarvis is online and ready. " false)
  = ["Jarvis is online and ready."].
Proof. reflexivity. Qed.

Example say_blocking_counts :
  let sp := say good_engine init "Goodbye!" true in
  (total_utterances sp, total_characters sp, _speaking sp) = (1, 8, false).
Proof. reflexivity. Qed.

(** A text with something to say always starts a thread. *)
Lemma say_text_starts_thread (engine : Engine) (sp : Speaker) (text : string)
      (block : bool) :
  forallb is_space (list_ascii_of_string text) = false ->
  started (say engine sp text block) = (started sp ++ [strip text])%list.
Proof.
  intros H. unfold say.
  assert (Hs : is_empty (strip text) = false).
  { destruct (is_empty (strip text)) eqn:E; [|reflexivity].
    apply PyStrFacts.is_empty_true, PyStrFacts.strip_empty_iff in E. congruence. }
  assert (Ht : is_empty text = false) by (destruct text; [discriminate | reflexivity]).
  rewrite Ht, Hs. cbn [orb].
  destruct block; [|reflexivity].
  unfold _say_thread. destruct (renders engine (strip text)); reflexivity.
Qed.

(** C8. Blank text.  [say] on a text that is empty or holds only white
    space returns the speaker it was given, for either value of [block] and
    whatever the engine would do: no thread is started, the speaking flag
    keeps its value (so it stays false when it was false), and the
    utterance and character counters keep theirs. *)
Theorem say_blank_is_noop (engine : Engine) (sp : Speaker) (text : string)
        (block : bool)
        (Hblank : forallb is_space (list_ascii_of_string text) = true) :
  say engine sp text block = sp /\
  started (say engine sp text block) = started sp /\
  _speaking (say engine sp text block) = _speaking sp /\
  total_utterances (say engine sp text block) = total_utterances sp /\
  total_characters (say engine sp text block) = total_characters sp.
Proof.
  assert (H : say engine sp text block = sp).
  { unfold say. rewrite (PyStrFacts.strip_blank _ Hblank). simpl.
    now rewrite orb_true_r. }
  now rewrite H.
Qed.

Lemma say_blank_is_noop_witness :
  say good_engine init (String (ascii_of_N 9) "   ") true = init /\
  started (say good_engine init (String (ascii_of_N 9) "   ") true) = [] /\
  _speaking (say good_engine init (String (ascii_of_N 9) "   ") true) = false.
Proof.
  destruct (say_blank_is_noop good_engine init (String (ascii_of_N 9) "   ") true
              eq_refl) as (H1 & H2 & H3 & _).
  split; [exact H1 | split; [exact H2 | exact H3]].
Defined.

End SpeakerProps.

(** ** Command router and main loop *)

Module AssistantFacts.
Import Py PyStr Assistant.

Section Scan.
Variable lowered : string.

Lemma scanned_step (seen : Registry) (st : best) (entry : string * skill_func) :
  scanned lowered seen st ->
  scanned lowered (seen ++ [entry])%list (find_step lowered st entry).
Proof.
  destruct entry as [k0 f0]. unfold find_step.
  destruct (str_in k0 lowered) eqn:Hin; cbn [andb].
  - destruct (best_length st <? len k0) eqn:Hlt.
    + apply Z.ltb_lt in Hlt. intros Hst. right.
      exists k0, f0, seen, []. cbn [best_match best_keyword best_length].
      repeat split; try reflexivity; try assumption.
      * destruct Hst as [(_ & _ & H0 & _) | (k & f & l1 & l2 & _ & _ & _ & Hl & Hpos & _)];
          lia.
      * intros k' f' Hk' Hin'.
        destruct Hst as [(_ & _ & H0 & Hall) | (k & f & l1 & l2 & -> & _ & _ & Hl & Hpos & Hk & H1 & H2)].
        -- rewrite (Hall k' f' Hk' Hin'). unfold len at 1. simpl. lia.
        -- apply in_app_or in Hk' as [Hk' | [Hk' | Hk']].
           ++ specialize (H1 _ _ Hk' Hin'). lia.
           ++ inversion Hk'; subst. lia.
           ++ specialize (H2 _ _ Hk' Hin'). lia.
      * intros k' f' [].
    + apply Z.ltb_ge in Hlt.
      intros [(Hm & Hk & H0 & Hall) | (k & f & l1 & l2 & -> & Hm & Hk & Hl & Hpos & Hkin & H1 & H2)].
      * left. repeat split; try assumption.
        intros k' f' Hk' Hin'. apply in_app_or in Hk' as [Hk' | [Hk' | []]].
        -- eauto.
        -- inversion Hk'; subst. apply PyStrFacts.len_zero_empty.
           pose proof (PyStrFacts.len_nonneg k'). lia.
      * right. exists k, f, l1, (l2 ++ [(k0, f0)])%list.
        rewrite <- app_assoc. cbn [app].
        repeat split; try assumption.
        intros k' f' Hk' Hin'. apply in_app_or in Hk' as [Hk' | [Hk' | []]].
        -- eauto.
        -- inversion Hk'; subst. lia.
  - intros [(Hm & Hk & H0 & Hall) | (k & f & l1 & l2 & -> & Hm & Hk & Hl & Hpos & Hkin & H1 & H2)].
    + left. repeat split; try assumption.
      intros k' f' Hk' Hin'. apply in_app_or in Hk' as [Hk' | [Hk' | []]].
      * eauto.
      * inversion Hk'; subst. congruence.
    + right. exists k, f, l1, (l2 ++ [(k0, f0)])%list.
      rewrite <- app_assoc. cbn [app].
      repeat split; try assumption.
      intros k' f' Hk' Hin'. apply in_app_or in Hk' as [Hk' | [Hk' | []]].
      * eauto.
      * inversion Hk'; subst. congruence.
Qed.

Lemma scanned_fold (rest : Registry) :
  forall (seen : Registry) (st : best),
    scanned lowered seen st ->
    scanned lowered (seen ++ rest)%list (fold_left (find_step lowered) rest st).
Proof.
  induction rest as [|entry rest IH]; intros seen st Hst.
  - now rewrite app_nil_r.
  - cbn [fold_left].
    replace (seen ++ entry :: rest)%list with ((seen ++ [entry]) ++ rest)%list
      by now rewrite <- app_assoc.
    apply IH. now apply scanned_step.
Qed.

Lemma find_scan_scanned (registry : Registry) :
  scanned lowered registry (find_scan registry lowered).
Proof.
  apply (scanned_fold registry []). left. repeat split. intros k f [].
Qed.

End Scan.

Lemma len_le_length (k k' : string) :
  len k' <= len k <-> (String.length k' <= String.length k)%nat.
Proof. unfold len. lia. Qed.

Lemma len_lt_length (k k' : string) :
  len k' < len k <-> (String.length k' < String.length k)%nat.
Proof. unfold len. lia. Qed.

(** [handle_special_commands] leaves the assistant alone and answers
    [False] when the text has none of its phrases. *)
Lemma handle_special_commands_none (cfg : Config) (engine : Speaker.Engine)
      (j : Jarvis) (text : string) :
  has_special_phrase cfg text = false ->
  handle_special_commands cfg engine j text = (j, false).
Proof.
  unfold has_special_phrase, handle_special_commands.
  intros H.
  repeat (apply orb_false_iff in H; destruct H as [H ?]).
  rewrite H.
  repeat match goal with
         | E : ?x = false |- context [?x] => rewrite E
         end.
  reflexivity.
Qed.

(** And it answers [True] whenever the text has one. *)
Lemma handle_special_commands_some (cfg : Config) (engine : Speaker.Engine)
      (j : Jarvis) (text : string) :
  has_special_phrase cfg text = true ->
  snd (handle_special_commands cfg engine j text) = true.
Proof.
  unfold has_special_phrase, handle_special_commands. intros H.
  destruct (existsb _ (STOP_WORDS cfg)); [reflexivity|].
  destruct (str_in "statistics" (lower text)); [reflexivity|].
  destruct (str_in "stats" (lower text)); [reflexivity|].
  destruct (str_in "clear history" (lower text)); [reflexivity|].
  destruct (str_in "forget conversation" (lower text)); [reflexivity|].
  cbn [orb] in H |- *. now rewrite H.
Qed.

Lemma takes_text_named (f : skill_func) : takes_text f = true -> has_name f = true.
Proof. destruct f; (discriminate || reflexivity). Qed.

(** When [find_skill] returns, it returns what the scan recorded. *)
Lemma find_skill_scan (registry : Registry) (text : string)
      (r : option skill_func * option string) :
  find_skill registry text = Ret r ->
  r = (best_match (find_scan registry (lower text)),
       best_keyword (find_scan registry (lower text))) /\
  forall f, fst r = Some f -> has_name f = true.
Proof.
  unfold find_skill.
  destruct (best_match (find_scan registry (lower text))) as [f|] eqn:E.
  - destruct (has_name f) eqn:Hn; [|discriminate].
    intros [= <-]. split; [reflexivity|]. cbn. now intros f' [= <-].
  - intros [= <-]. split; [reflexivity|]. cbn. discriminate.
Qed.

Lemma find_skill_shape (registry : Registry) (text : string)
      (r : option skill_func * option string) :
  find_skill registry text = Ret r ->
  (exists f k, r = (Some f, Some k)) \/ r = (None, None).
Proof.
  intros H. apply find_skill_scan in H as [-> _].
  destruct (find_scan_scanned (lower text) registry)
    as [(Hm & Hk & _) | (k & f & l1 & l2 & _ & Hm & Hk & _)]; rewrite Hm, Hk; eauto.
Qed.

Lemma find_skill_found (registry : Registry) (text : string)
      (f : skill_func) (k : string) :
  find_skill registry text = Ret (Some f, Some k) ->
  exists l1 l2,
    registry = (l1 ++ (k, f) :: l2)%list /\
    has_name f = true /\ 0 < len k /\ str_in k (lower text) = true /\
    (forall k' f', In (k', f') l1 -> str_in k' (lower text) = true -> len k' < len k) /\
    (forall k' f', In (k', f') l2 -> str_in k' (lower text) = true -> len k' <= len k).
Proof.
  intros H. apply find_skill_scan in H as [Hr Hn].
  destruct (find_scan_scanned (lower text) registry)
    as [(Hm & _) | (k0 & f0 & l1 & l2 & Hreg & Hm & Hk & _ & Hpos & Hin & H1 & H2)].
  - rewrite Hm in Hr. discriminate.
  - rewrite Hm, Hk in Hr. injection Hr as -> ->.
    exists l1, l2. repeat split; auto.
Qed.

Lemma find_skill_nothing (registry : Registry) (text : string) :
  find_skill registry text = Ret (None, None) ->
  forall k f, In (k, f) registry -> str_in k (lower text) = true -> k = EmptyString.
Proof.
  intros H. apply find_skill_scan in H as [Hr _].
  destruct (find_scan_scanned (lower text) registry)
    as [(_ & _ & _ & Hall) | (k0 & f0 & l1 & l2 & _ & Hm & _)].
  - exact Hall.
  - rewrite Hm in Hr. discriminate.
Qed.

(** [find_skill] returns when every registered handler has a name. *)
Lemma find_skill_named (registry : Registry) (text : string) :
  (forall k f, In (k, f) registry -> has_name f = true) ->
  exists r, find_skill registry text = Ret r.
Proof.
  intros Hall. unfold find_skill.
  destruct (find_scan_scanned (lower text) registry)
    as [(Hm & _) | (k & f & l1 & l2 & Hreg & Hm & _)]; rewrite Hm; [eauto|].
  rewrite (Hall k f); [eauto|].
  rewrite Hreg. apply in_or_app. right. now left.
Qed.

End AssistantFacts.

Module AssistantProps.
Import Py PyStr Assistant AssistantFacts Samples.

Example find_skill_open :
  find_skill SKILLS "Open Chrome" = Ret (Some open_app, Some "open").
Proof. reflexivity. Qed.

Example find_skill_no_match : find_skill SKILLS "tell me a joke" = Ret (None, None).
Proof. reflexivity. Qed.

Example find_skill_nameless_match :
  find_skill [("dance", nameless 0)] "Dance for me" = Raise no_name.
Proof. reflexivity. Qed.

Example strip_wake_words_command :
  strip_wake_words default_config "Jarvis what time" = "what time".
Proof. reflexivity. Qed.

Example cycle_runs_a_skill :
  let j := cycle default_config [("time", get_time)]
                 (fun _ _ => Ret (Some "It is noon.")) (answers "unused") good_engine
                 fresh_jarvis (Some "jarvis what time") in
  (total_interactions j, successful_commands j, ai_responses j, errors j,
   Speaker.started (speaker j)) = (1, 1, 0, 0, ["It is noon."]).
Proof. reflexivity. Qed.

Example cycle_asks_the_model :
  let j := cycle default_config SKILLS raising_handlers
                 (answers "Why did the robot cross the road?") good_engine
                 fresh_jarvis (Some "Jarvis tell me a joke") in
  (total_interactions j, successful_commands j, ai_responses j, errors j,
   Brain.hlen (brain j), Speaker.started (speaker j))
  = (1, 0, 1, 0, 2, ["Why did the robot cross the road?"]).
Proof. reflexivity. Qed.

(** Inside the loop the exception [chat] lets out is caught by
    [process_with_ai] and counted as an error. *)
Example cycle_counts_a_leaked_exception :
  let j := cycle default_config SKILLS raising_handlers
                 (fails OtherException "timed out") good_engine
                 fresh_jarvis (Some "Jarvis tell me a joke") in
  (ai_responses j, errors j, Speaker.started (speaker j))
  = (0, 1, ["I had trouble processing that: timed out"]).
Proof. reflexivity. Qed.

(** A handler that returns [None]: the command is counted as a success
    inside [execute_skill], the slice of the result raises, the loop counts
    an error, and nothing is said. *)
Example cycle_handler_returns_none :
  let j := cycle default_config SKILLS mute_handlers (answers "unused") good_engine
                 fresh_jarvis (Some "jarvis what time") in
  (total_interactions j, successful_commands j, ai_responses j, errors j,
   Speaker.started (speaker j)) = (1, 1, 0, 1, []).
Proof. reflexivity. Qed.

(** A registered callable without [__name__]: [find_skill] raises, the
    loop counts an error, no handler is called. *)
Example cycle_nameless_skill :
  let j := cycle default_config [("dance", nameless 0)]
                 (fun _ _ => Ret (Some "Dancing.")) (answers "unused") good_engine
                 fresh_jarvis (Some "jarvis dance") in
  (total_interactions j, successful_commands j, ai_responses j, errors j,
   Speaker.started (speaker j)) = (1, 0, 0, 1, []).
Proof. reflexivity. Qed.



(** C4, as stated, fails on the table of [skills.py]: in
    ["what date what time"] the keywords ["what time"] and ["what date"]
    both occur, have the same length, no occurring keyword is longer, and
    ["what date"] is the later of the two in the scan; [find_skill] answers
    ["what time"]. *)
Lemma find_skill_tie_not_last :
  str_in "what time" (lower "what date what time") = true /\
  str_in "what date" (lower "what date what time") = true /\
  String.length "what time" = String.length "what date" /\
  forallb (fun entry => implb (str_in (fst entry) (lower "what date what time"))
                              (len (fst entry) <=? len "what date")) SKILLS = true /\
  (exists l1 l2 l3,
      SKILLS = (l1 ++ ("what time", get_time) :: l2 ++
                ("what date", get_date) :: l3)%list) /\
  find_skill SKILLS "what date what time" = Ret (Some get_time, Some "what time") /\
  (forall f, find_skill SKILLS "what date what time" <> Ret (f, Some "what date")).
Proof.
  repeat split.
  - exists [("open", open_app); ("launch", open_app); ("start", open_app);
            ("run", open_app); ("close", close_app); ("quit", close_app)],
           [("time", get_time)].
    eexists. reflexivity.
  - intros f. discriminate.
Qed.

(** C4, amended.  The keyword [find_skill] answers with is the first of the
    longest occurring keywords in the scan of the registry: every occurring
    keyword scanned before it is strictly shorter, and every occurring
    keyword scanned after it is at most as long. *)
Theorem find_skill_tie_goes_to_first (registry : Registry) (text : string)
        (f : skill_func) (k : string)
        (Hfound : find_skill registry text = Ret (Some f, Some k)) :
  exists l1 l2,
    registry = (l1 ++ (k, f) :: l2)%list /\
    (forall k' f', In (k', f') l1 -> substring_of k' (lower text) ->
                   (String.length k' < String.length k)%nat) /\
    (forall k' f', In (k', f') l2 -> substring_of k' (lower text) ->
                   (String.length k' <= String.length k)%nat).
Proof.
  destruct (find_skill_found registry text f k Hfound)
    as (l1 & l2 & Hreg & _ & _ & _ & H1 & H2).
  exists l1, l2. split; [exact Hreg | split].
  - intros k' f' Hk' Hsub. apply len_lt_length.
    apply (H1 k' f' Hk'). now apply PyStrFacts.str_in_iff.
  - intros k' f' Hk' Hsub. apply len_le_length.
    apply (H2 k' f' Hk'). now apply PyStrFacts.str_in_iff.
Qed.

Lemma find_skill_tie_goes_to_first_witness :
  exists l1 l2,
    SKILLS = (l1 ++ ("what time", get_time) :: l2)%list /\
    (forall k' f', In (k', f') l1 -> substring_of k' (lower "what date what time") ->
                   (String.length k' < String.length "what time")%nat) /\
    (forall k' f', In (k', f') l2 -> substring_of k' (lower "what date what time") ->
                   (String.length k' <= String.length "what time")%nat).
Proof.
  exact (find_skill_tie_goes_to_first SKILLS "what date what time"
           get_time "what time" eq_refl).
Defined.

Example stop_is_special : has_special_phrase default_config "Jarvis, STOP" = true.
Proof. reflexivity. Qed.

Example cycle_stats_request_speaks :
  Speaker.started
    (speaker (cycle default_config SKILLS raising_handlers (answers "unused")
                    good_engine fresh_jarvis (Some "show me the stats")))
  = ["I've handled 0 interactions, with 0 skill executions and 0 AI responses."].
Proof. reflexivity. Qed.

(** C7. Text without activation phrase.  A heard text that holds none of
    the control phrases ([has_special_phrase] is false) and none of the
    configured wake words leaves the assistant exactly as it was, whatever
    the registry, the handlers, the backend and the engine are: the four
    counters, the brain with its history, and the speaker with the list of
    speech threads started are all unchanged. *)
Theorem cycle_discards_without_wake_word
        (cfg : Config) (registry : Registry) (handlers : Handlers)
        (backend : Brain.Backend) (engine : Speaker.Engine)
        (j : Jarvis) (heard : string)
        (Hplain : has_special_phrase cfg heard = false)
        (Hnowake : is_wake_word cfg heard = false) :
  let j' := cycle cfg registry handlers backend engine j (Some heard) in
  j' = j /\
  total_interactions j' = total_interactions j /\
  successful_commands j' = successful_commands j /\
  ai_responses j' = ai_responses j /\
  errors j' = errors j /\
  Brain.history (brain j') = Brain.history (brain j) /\
  Speaker.started (speaker j') = Speaker.started (speaker j).
Proof.
  assert (H : cycle cfg registry handlers backend engine j (Some heard) = j).
  { unfold cycle, cycle_try.
    destruct (Speaker.is_speaking (speaker j)); [reflexivity|].
    destruct (is_empty heard); [reflexivity|].
    rewrite (handle_special_commands_none cfg engine j heard Hplain).
    now rewrite Hnowake. }
  cbv zeta. now rewrite H.
Qed.

Lemma cycle_discards_without_wake_word_witness :
  cycle default_config SKILLS not_found_handlers (answers "It is noon.")
        good_engine fresh_jarvis (Some "what time")
  = fresh_jarvis.
Proof.
  exact (proj1 (cycle_discards_without_wake_word default_config SKILLS
                  not_found_handlers (answers "It is noon.") good_engine
                  fresh_jarvis "what time" eq_refl eq_refl)).
Defined.

Example execute_skill_reports_failure :
  execute_skill not_found_handlers fresh_jarvis open_app "open  frobnicator now" "open"
  = Ret (incr_successful_commands fresh_jarvis,
         Some "Could not find frobnicator now. Try adding its full path to your configuration.").
Proof. reflexivity. Qed.

Example execute_skill_hardware_default :
  execute_skill (fun _ arg => Ret arg) fresh_jarvis control_hardware "hardware" "hardware"
  = Ret (incr_successful_commands fresh_jarvis, Some "status").
Proof. reflexivity. Qed.

Example execute_skill_counts_error :
  execute_skill raising_handlers fresh_jarvis get_time "time" "time"
  = Ret (incr_errors fresh_jarvis,
         Some "I encountered an unexpected error: handler failed").
Proof. reflexivity. Qed.

(** C10. What [successful_commands] counts.  For a handler with a
    [__name__], whenever the dispatch inside [execute_skill] returns, the
    result is passed on, [successful_commands] grows by one and [errors]
    keeps its value; whenever it raises, [errors] grows by one and
    [successful_commands] keeps its value.  The dispatch returns in
    particular (a) for [open_app], [close_app] and [search_web] when
    nothing is left of the command once the keyword is removed: the result
    is the request to specify what to open whatever the handlers would do,
    so no handler is called; and (b) when the handler, called with no
    argument or with the rest of the command, returns, whatever it returns,
    a report of failure and [None] included.  For a callable without
    [__name__] the first line of [execute_skill] raises before anything is
    dispatched or counted. *)
Theorem execute_skill_counts_every_return
        (handlers : Handlers) (j : Jarvis) (skill : skill_func)
        (command keyword : string) :
  (forall answer,
      has_name skill = true ->
      execute_skill_try handlers skill command keyword = Ret answer ->
      exists j',
        execute_skill handlers j skill command keyword = Ret (j', answer) /\
        successful_commands j' = successful_commands j + 1 /\
        errors j' = errors j) /\
  (forall exc,
      has_name skill = true ->
      execute_skill_try handlers skill command keyword = Raise exc ->
      exists j' text,
        execute_skill handlers j skill command keyword = Ret (j', Some text) /\
        successful_commands j' = successful_commands j /\
        errors j' = errors j + 1) /\
  (takes_text skill = true -> skill_args command keyword = [] ->
   forall handlers',
     execute_skill handlers' j skill command keyword
     = Ret (incr_successful_commands j, Some "Please specify what to open.")) /\
  (has_name skill = true ->
   takes_text skill = false -> is_control_hardware skill = false ->
   forall message,
     handlers skill None = Ret message ->
     execute_skill handlers j skill command keyword
     = Ret (incr_successful_commands j, message)) /\
  (takes_text skill = true ->
   forall arg args message,
     skill_args command keyword = arg :: args ->
     handlers skill (Some (join " " (arg :: args))) = Ret message ->
     execute_skill handlers j skill command keyword
     = Ret (incr_successful_commands j, message)) /\
  (has_name skill = false ->
   forall handlers',
     execute_skill handlers' j skill command keyword = Raise no_name).
Proof.
  split; [|split; [|split; [|split; [|split]]]].
  - intros answer Hn H. unfold execute_skill. rewrite Hn, H. cbn [negb].
    eexists. split; [reflexivity | auto].
  - intros exc Hn H. unfold execute_skill. rewrite Hn, H. cbn [negb].
    eexists. eexists. split; [reflexivity | auto].
  - intros Ht Ha handlers'. unfold execute_skill, execute_skill_try.
    rewrite (takes_text_named skill Ht), Ht, Ha. reflexivity.
  - intros Hn Ht Hh message H. unfold execute_skill, execute_skill_try.
    now rewrite Hn, Ht, Hh, H.
  - intros Ht arg args message Ha H. unfold execute_skill, execute_skill_try.
    rewrite (takes_text_named skill Ht), Ht, Ha, H. reflexivity.
  - intros Hn handlers'. unfold execute_skill. now rewrite Hn.
Qed.

Lemma execute_skill_counts_every_return_witness :
  execute_skill raising_handlers fresh_jarvis open_app "open" "open"
  = Ret (incr_successful_commands fresh_jarvis, Some "Please specify what to open.") /\
  exists j',
    execute_skill not_found_handlers fresh_jarvis search_web
                  "search  quantum foam" "search"
    = Ret (j', Some "Could not find quantum foam. Try adding its full path to your configuration.") /\
    successful_commands j' = successful_commands fresh_jarvis + 1 /\
    errors j' = errors fresh_jarvis.
Proof.
  split.
  - exact (proj1 (proj2 (proj2
             (execute_skill_counts_every_return not_found_handlers fresh_jarvis
                open_app "open" "open")))
             eq_refl eq_refl raising_handlers).
  - exact (proj1
             (execute_skill_counts_every_return not_found_handlers fresh_jarvis
                search_web "search  quantum foam" "search")
             _ eq_refl eq_refl).
Defined.

End AssistantProps.

(** ** Strings, continued *)

Module PyStrMore.
Import PyStr PyStrFacts.

Lemma lower_char_idem (c : ascii) : lower_char (lower_char c) = lower_char c.
Proof. destruct c as [[] [] [] [] [] [] [] []]; reflexivity. Qed.

Lemma lower_idem (s : string) : lower (lower s) = lower s.
Proof.
  induction s as [|c s IH]; simpl; [reflexivity|].
  now rewrite lower_char_idem, IH.
Qed.

Lemma lower_append (a b : string) : lower (a ++ b) = lower a ++ lower b.
Proof. induction a as [|c a IH]; simpl; [reflexivity | now rewrite IH]. Qed.

Lemma is_empty_lower (s : string) : is_empty (lower s) = is_empty s.
Proof. destruct s; reflexivity. Qed.

Lemma lower_cons (c : ascii) (s : string) :
  lower (String c s) = String c s <-> lower_char c = c /\ lower s = s.
Proof.
  simpl. split.
  - intros H. injection H as Hc Hs. now split.
  - intros [Hc Hs]. now rewrite Hc, Hs.
Qed.

(** A block of a lower-case text is lower-case. *)
Lemma lower_append_fixed (a b : string) :
  lower (a ++ b) = a ++ b -> lower a = a /\ lower b = b.
Proof.
  induction a as [|c a IH]; simpl; [auto|].
  intros H. injection H as Hc Hrest.
  destruct (IH Hrest) as [Ha Hb]. now rewrite Hc, Ha.
Qed.

Lemma substring_lower_case (k s : string) :
  substring_of k s -> lower s = s -> lower k = k.
Proof.
  intros (pre & post & ->) H.
  apply lower_append_fixed in H as [_ H].
  now apply lower_append_fixed in H as [H _].
Qed.

(** What occurs in a lower-cased text is lower-case itself. *)
Lemma str_in_lower_case (k text : string) :
  str_in k (lower text) = true -> lower k = k.
Proof.
  intros H. apply str_in_iff in H.
  exact (substring_lower_case _ _ H (lower_idem text)).
Qed.

(** Occurrence survives lower-casing both sides. *)
Lemma substring_lower (k s : string) :
  substring_of k s -> substring_of (lower k) (lower s).
Proof.
  intros (pre & post & ->). exists (lower pre), (lower post).
  now rewrite !lower_append.
Qed.

Lemma intersperse_empty (s : string) : intersperse EmptyString s = s.
Proof. induction s as [|c s IH]; simpl; [reflexivity | now rewrite IH]. Qed.

Lemma replace_go_lower_case (old : string) (s : string) :
  forall skip, lower s = s ->
               lower (replace_go old EmptyString skip s)
               = replace_go old EmptyString skip s.
Proof.
  induction s as [|c s IH]; intros skip H; [reflexivity|].
  apply lower_cons in H as [Hc Hs]. cbn [replace_go].
  destruct skip as [|k]; [|now apply IH].
  destruct (String.prefix old (String c s)).
  - cbn [append]. now apply IH.
  - apply lower_cons. split; [exact Hc | now apply IH].
Qed.

Lemma replace_lower_case (old s : string) :
  lower s = s -> lower (replace old EmptyString s) = replace old EmptyString s.
Proof.
  intros H. unfold replace. destruct (is_empty old).
  - now rewrite intersperse_empty.
  - now apply replace_go_lower_case.
Qed.

Lemma lstrip_lower_case (s : string) : lower s = s -> lower (lstrip s) = lstrip s.
Proof.
  induction s as [|c s IH]; intros H; [reflexivity|].
  cbn [lstrip]. destruct (is_space c); [|exact H].
  apply lower_cons in H as [_ H]. now apply IH.
Qed.

Lemma rstrip_lower_case (s : string) : lower s = s -> lower (rstrip s) = rstrip s.
Proof.
  induction s as [|c s IH]; intros H; [reflexivity|].
  apply lower_cons in H as [Hc Hs]. cbn [rstrip].
  destruct (is_space c && is_empty (rstrip s)); [reflexivity|].
  apply lower_cons. split; [exact Hc | now apply IH].
Qed.

Lemma strip_lower_case (s : string) : lower s = s -> lower (strip s) = strip s.
Proof. intros H. unfold strip. now apply rstrip_lower_case, lstrip_lower_case. Qed.

Lemma rstrip_idem (s : string) : rstrip (rstrip s) = rstrip s.
Proof.
  induction s as [|c s IH]; [reflexivity|].
  cbn [rstrip].
  destruct (is_space c && is_empty (rstrip s)) eqn:E; [reflexivity|].
  cbn [rstrip]. now rewrite IH, E.
Qed.

Lemma lstrip_head (s : string) :
  lstrip s = EmptyString \/ exists c r, lstrip s = String c r /\ is_space c = false.
Proof.
  induction s as [|c s IH]; [now left|].
  cbn [lstrip]. destruct (is_space c) eqn:E; [exact IH|].
  right. now exists c, s.
Qed.

Lemma lstrip_rstrip_head (c : ascii) (r : string) :
  is_space c = false -> lstrip (rstrip (String c r)) = rstrip (String c r).
Proof.
  intros H. destruct (rstrip_head_kept c r H) as [r' ->].
  cbn [lstrip]. now rewrite H.
Qed.

(** [strip] of a stripped text changes nothing. *)
Lemma strip_idem (s : string) : strip (strip s) = strip s.
Proof.
  unfold strip at 2 3.
  destruct (lstrip_head s) as [-> | (c & r & -> & Hc)]; [reflexivity|].
  unfold strip. rewrite (lstrip_rstrip_head c r Hc). apply rstrip_idem.
Qed.

End PyStrMore.

(** ** Conversation state, continued *)

Module BrainMore.
Import Py PyStr Brain BrainFacts BrainOps Samples.

Section WithConfig.
Variable cfg : Config.

Lemma trim_history_count (b : Brain) :
  interaction_count (_trim_history cfg b) = interaction_count b.
Proof. unfold _trim_history. destruct (0 <? _); reflexivity. Qed.

Lemma trim_history_prompt (b : Brain) :
  system_prompt (_trim_history cfg b) = system_prompt b.
Proof. unfold _trim_history. destruct (0 <? _); reflexivity. Qed.

Lemma add_user_prompt (b : Brain) (m : string) :
  system_prompt (add_user_message cfg b m) = system_prompt b.
Proof. unfold add_user_message. now rewrite trim_history_prompt. Qed.

Lemma chat_count (backend : Backend) (b : Brain) (m : string) :
  interaction_count (fst (chat cfg backend b m)) = interaction_count b + 1.
Proof.
  destruct (chat_brain_shape cfg backend b m) as [-> | (reply & _ & _ & ->)].
  - apply add_user_count.
  - rewrite trim_history_count. cbn. apply add_user_count.
Qed.

Lemma chat_prompt (backend : Backend) (b : Brain) (m : string) :
  system_prompt (fst (chat cfg backend b m)) = system_prompt b.
Proof.
  destruct (chat_brain_shape cfg backend b m) as [-> | (reply & _ & _ & ->)].
  - apply add_user_prompt.
  - rewrite trim_history_prompt. cbn. apply add_user_prompt.
Qed.

Lemma last_cons {A} (x d : A) (l : list A) : last (x :: l) d = last l x.
Proof.
  revert x d. induction l as [|y l IH]; intros x d; [reflexivity|].
  change (last (x :: y :: l) d) with (last (y :: l) d).
  now rewrite (IH y d), (IH y x).
Qed.

(** What trimming leaves of a history that ends with [m]: nothing, or a
    history that still ends with [m]. *)
Lemma trimmed_snoc (h : list Message) (m : Message) :
  trimmed cfg (h ++ [m]) = [] \/ exists h', trimmed cfg (h ++ [m]) = (h' ++ [m])%list.
Proof.
  unfold trimmed. rewrite length_app. cbn [List.length].
  set (n := Z.to_nat _). rewrite skipn_app.
  destruct (n - List.length h)%nat as [|k] eqn:E.
  - right. cbn [skipn]. eauto.
  - left. assert (List.length h <= n)%nat by lia.
    rewrite skipn_all2 by assumption. cbn [skipn app].
    now destruct k.
Qed.

Lemma trimmed_clean (h : list Message) : clean h -> clean (trimmed cfg h).
Proof.
  intros H. destruct (trimmed_suffix cfg h) as [pre Hpre].
  unfold clean in *. rewrite Hpre in H. now apply Forall_app in H as [_ H].
Qed.

Lemma chat_clean (backend : Backend) (b : Brain) (m : string) :
  clean (history b) -> clean (history (fst (chat cfg backend b m))).
Proof.
  intros H.
  assert (H2 : clean (history (add_user_message cfg b m))).
  { rewrite add_user_history. apply trimmed_clean.
    apply Forall_app. split; [exact H | now repeat constructor]. }
  destruct (chat_brain_shape cfg backend b m) as [-> | (reply & _ & _ & ->)];
    [exact H2|].
  rewrite trim_history_trimmed. apply trimmed_clean. cbn.
  apply Forall_app. split; [exact H2 | now repeat constructor].
Qed.

End WithConfig.

Lemma count_role_total (h : list Message) :
  count_role system h + count_role user h + count_role assistant h
  = Z.of_nat (List.length h).
Proof.
  unfold count_role.
  induction h as [|[[] c] h IH]; cbn [filter has_role role List.length] in *; lia.
Qed.

Lemma clean_count (h : list Message) : clean h -> count_role system h = 0.
Proof.
  unfold count_role. induction 1 as [|m h Hm _ IH]; [reflexivity|].
  cbn [filter]. now rewrite Hm.
Qed.

Lemma count_clean (h : list Message) : count_role system h = 0 -> clean h.
Proof.
  unfold count_role, clean. induction h as [|m h IH]; intros H; [constructor|].
  cbn [filter] in H. destruct (has_role system m) eqn:E.
  - cbn in H. lia.
  - constructor; auto.
Qed.

(** A text whose first character is [I] is none of the three intents. *)
Lemma classify_starts_with_I (r : string) : classify (String "I" r) = "UNKNOWN".
Proof.
  unfold classify.
  destruct (PyStrFacts.rstrip_head_kept "I"%char r eq_refl) as [r' Hr].
  unfold strip. cbn [lstrip]. change (is_space "I"%char) with false. cbv iota.
  rewrite Hr. reflexivity.
Qed.

Lemma classify_in_set (response : string) :
  In (classify response) ["QUESTION"; "COMMAND"; "CONVERSATION"; "UNKNOWN"].
Proof.
  unfold classify.
  destruct (codes_eqb _ (codes "QUESTION")); [now left|].
  destruct (codes_eqb _ (codes "COMMAND")); [right; now left|].
  destruct (codes_eqb _ (codes "CONVERSATION")); [right; right; now left|].
  right; right; right; now left.
Qed.

Example classify_ignores_case_and_blanks :
  classify (" Question" ++ nl) = "QUESTION".
Proof. reflexivity. Qed.

Example classify_sentence : classify "It is a question." = "UNKNOWN".
Proof. reflexivity. Qed.

Example history_summary_after_two_calls :
  get_history_summary
    (last (chat_trace default_config fresh_brain
             [("hello", answers "Hi."); ("again", fails ConnectionError "down")])
          fresh_brain)
  = "History: 3 messages (2 user, 1 assistant)".
Proof. reflexivity. Qed.

(** X1. Every call of [chat] is counted: after a run of calls, whatever
    the backend did at each of them, [interaction_count] has grown by the
    number of calls. *)
Theorem interaction_count_counts_every_call
        (cfg : Config) (b : Brain) (calls : list (string * Backend)) :
  interaction_count (last (chat_trace cfg b calls) b)
  = interaction_count b + Z.of_nat (List.length calls).
Proof.
  revert b. induction calls as [|[m backend] calls IH]; intros b.
  - cbn. lia.
  - cbn [chat_trace]. rewrite last_cons, IH, chat_count.
    cbn [List.length]. lia.
Qed.

(** X2. Size of the request.  With a bound of zero or more, the message
    list handed to the backend starts with the system prompt and holds at
    most [MAX_HISTORY_LENGTH] further messages: the trimmed history when
    context is enabled, the user message alone when it is not. *)
Theorem request_is_bounded (cfg : Config) (b : Brain) (m : string)
        (messages : list Message)
        (Hmax : 0 <= MAX_HISTORY_LENGTH cfg)
        (Hreq : build_messages cfg (add_user_message cfg b m) = Ret messages) :
  exists rest,
    messages = mkMessage system (system_prompt b) :: rest /\
    Z.of_nat (List.length rest) <= MAX_HISTORY_LENGTH cfg /\
    (if ENABLE_CONTEXT cfg
     then rest = trimmed cfg (history b ++ [mkMessage user m])
     else rest = [mkMessage user m]).
Proof.
  unfold build_messages in Hreq. rewrite add_user_prompt in Hreq.
  destruct (ENABLE_CONTEXT cfg).
  - injection Hreq as <-. eexists. split; [reflexivity|].
    rewrite add_user_history. split; [now apply trimmed_length | reflexivity].
  - unfold history_last in Hreq. rewrite add_user_history in Hreq.
    pose proof (trimmed_length cfg (history b ++ [mkMessage user m]) Hmax) as Hlen.
    destruct (trimmed_snoc cfg (history b) (mkMessage user m)) as [E | [h' E]];
      rewrite E in Hreq, Hlen.
    + discriminate.
    + rewrite rev_app_distr in Hreq. cbn in Hreq. injection Hreq as <-.
      eexists. split; [reflexivity|]. split; [|reflexivity].
      rewrite length_app in Hlen. cbn in *. lia.
Qed.

Lemma request_is_bounded_witness :
  exists rest,
    [mkMessage system "You are Jarvis."; mkMessage user "hi";
     mkMessage assistant "Hello."; mkMessage user "and now?"]
    = mkMessage system (system_prompt greeted_brain) :: rest /\
    Z.of_nat (List.length rest) <= 10 /\
    rest = trimmed default_config (history greeted_brain ++ [mkMessage user "and now?"]).
Proof.
  exact (request_is_bounded default_config greeted_brain "and now?" _
           ltac:(simpl; lia) eq_refl).
Defined.

(** X3. No system message in the history.  From a history without system
    messages (the empty one of a new brain included), after every call of
    a run of [chat] calls the history still has none, so the two counts
    that [get_history_summary] reports add up to the length it reports. *)
Theorem history_holds_no_system_message
        (cfg : Config) (b : Brain) (calls : list (string * Backend))
        (Hclean : count_role system (history b) = 0) :
  Forall (fun b' => count_role system (history b') = 0 /\
                    count_role user (history b') + count_role assistant (history b')
                    = hlen b')
         (chat_trace cfg b calls).
Proof.
  apply count_clean in Hclean. revert b Hclean.
  induction calls as [|[m backend] calls IH]; intros b Hclean; cbn [chat_trace].
  - constructor.
  - pose proof (chat_clean cfg backend b m Hclean) as H.
    constructor; [|now apply IH].
    pose proof (count_role_total (history (fst (chat cfg backend b m)))) as Ht.
    rewrite (clean_count _ H) in *. unfold hlen. split; lia.
Qed.

Lemma history_holds_no_system_message_witness :
  Forall (fun b' => count_role system (history b') = 0 /\
                    count_role user (history b') + count_role assistant (history b')
                    = hlen b')
         (chat_trace default_config fresh_brain sample_calls).
Proof.
  exact (history_holds_no_system_message default_config fresh_brain sample_calls
           eq_refl).
Defined.

(** X4. [get_intent] always answers.  It returns one of the four words
    QUESTION, COMMAND, CONVERSATION, UNKNOWN and never raises, also when
    [chat] lets an exception out; and it counts as an interaction like any
    other call of [chat]. *)
Theorem get_intent_total (cfg : Config) (backend : Backend) (b : Brain)
        (m : string) :
  (exists w, snd (get_intent cfg backend b m) = Ret w /\
             In w ["QUESTION"; "COMMAND"; "CONVERSATION"; "UNKNOWN"]) /\
  fst (get_intent cfg backend b m) = fst (chat cfg backend b (intent_prompt m)) /\
  interaction_count (fst (get_intent cfg backend b m)) = interaction_count b + 1.
Proof.
  pose proof (chat_count cfg backend b (intent_prompt m)) as Hc.
  unfold get_intent.
  destruct (chat cfg backend b (intent_prompt m)) as [b' [response|e]];
    cbn [fst snd try_except dispatch is_Exception] in *.
  - split; [|auto]. eexists. split; [reflexivity | apply classify_in_set].
  - split; [|auto]. exists "UNKNOWN". split; [reflexivity|].
    right; right; right; now left.
Qed.

(** X5. [get_intent] on failure.  When the backend raises, whatever the
    exception, or replies with no text, or with [None] where the text
    should be, [get_intent] answers UNKNOWN: the diagnostic sentence
    [chat] returns is none of the three intents, and an exception [chat]
    lets out is caught. *)
Theorem get_intent_unknown_on_failure
        (cfg : Config) (backend : Backend) (b : Brain) (m : string)
        (messages : list Message)
        (Hreq : build_messages cfg (add_user_message cfg b (intent_prompt m))
                = Ret messages)
        (Hfail : is_diagnostic (backend messages) = true \/
                 (exists e, backend messages = Raise e) \/
                 (exists response e, backend messages = Ret response /\
                                     get_content response = Raise e)) :
  snd (get_intent cfg backend b m) = Ret "UNKNOWN".
Proof.
  unfold get_intent.
  destruct (backend messages) as [response|e] eqn:Hb.
  - destruct (get_content response) as [content|e] eqn:Hc.
    + destruct Hfail as [Hd | [[e He] | (r & e & Hr & He)]];
        [|discriminate | injection Hr as <-; congruence].
      cbn in Hd. rewrite Hc in Hd. apply PyStrFacts.is_empty_true in Hd.
      rewrite (chat_empty_reply cfg _ _ _ _ _ _ Hreq Hb Hc Hd). reflexivity.
    + rewrite (chat_reply_raises cfg _ _ _ _ _ _ Hreq Hb Hc).
      unfold on_ollama_exc.
      destruct (is_ResponseError e); [reflexivity|].
      destruct (is_ConnectionError e); reflexivity.
  - rewrite (chat_backend_raises cfg _ _ _ _ _ Hreq Hb).
    unfold on_ollama_exc.
    destruct (is_ResponseError e); [reflexivity|].
    destruct (is_ConnectionError e); reflexivity.
Qed.

Lemma get_intent_unknown_on_failure_witness :
  snd (get_intent default_config (fails ResponseError "model not found")
                  fresh_brain "open chrome")
  = Ret "UNKNOWN".
Proof.
  exact (get_intent_unknown_on_failure default_config
           (fails ResponseError "model not found") fresh_brain "open chrome"
           [mkMessage system "You are Jarvis.";
            mkMessage user (intent_prompt "open chrome")]
           eq_refl (or_introl eq_refl)).
Defined.

(** X6. A cleared history does not leak.  With room for one message, the
    first request after [clear_history] is the system prompt and the new
    user message and nothing else, whether context is enabled or not, and
    the interaction count starts again at one. *)
Theorem clear_history_starts_afresh (cfg : Config) (b : Brain) (m : string)
        (Hmax : 0 < MAX_HISTORY_LENGTH cfg) :
  build_messages cfg (add_user_message cfg (clear_history b) m)
  = Ret [mkMessage system (system_prompt b); mkMessage user m] /\
  forall backend,
    interaction_count (fst (chat cfg backend (clear_history b) m)) = 1.
Proof.
  split.
  - assert (Hh : history (add_user_message cfg (clear_history b) m)
                 = [mkMessage user m]).
    { rewrite add_user_history. unfold trimmed.
      cbn [clear_history history app List.length].
      replace (Z.to_nat _) with 0%nat by lia. reflexivity. }
    unfold build_messages, history_last. rewrite add_user_prompt, Hh. cbn.
    now destruct (ENABLE_CONTEXT cfg).
  - intros backend. now rewrite chat_count.
Qed.

Lemma clear_history_starts_afresh_witness :
  build_messages default_config
                 (add_user_message default_config (clear_history greeted_brain) "hello")
  = Ret [mkMessage system "You are Jarvis."; mkMessage user "hello"].
Proof.
  exact (proj1 (clear_history_starts_afresh default_config greeted_brain "hello"
                  ltac:(simpl; lia))).
Defined.

End BrainMore.

(** ** Speech input *)

Module ListenerProps.
Import Py PyStr Listener.

Lemma listen_counts (l : Listener) (c : capture) :
  total_attempts (fst (listen l c)) = total_attempts l + 1 /\
  counted (fst (listen l c))
  = counted l + (if is_timeout c then 0 else 1).
Proof.
  unfold listen, counted.
  destruct c as [|e|r]; cbn; [lia | lia |].
  destruct (_recognize_online r) as [text|e]; [|cbn; lia].
  destruct (truthy text); cbn; lia.
Qed.

Example listen_unintelligible :
  listen (init true) (Captured Unintelligible)
  = (mkListener true 1 0 1, None).
Proof. reflexivity. Qed.

Example listen_network_error :
  listen (init true) (Captured (ServiceError "Network is unreachable"))
  = (mkListener true 1 1 0,
     Some "Connection error: Please check your internet connection.").
Proof. reflexivity. Qed.

(** X7. The listener's counters.  After any run of [listen] calls,
    [total_attempts] has grown by the number of calls, and
    [successful_recognitions + failed_recognitions] by the number of calls
    that did not end in a timeout: a timeout is counted as an attempt and
    as nothing else. *)
Theorem listener_counts_attempts (l : Listener) (cs : list capture) :
  total_attempts (listen_all l cs) = total_attempts l + Z.of_nat (List.length cs) /\
  successful_recognitions (listen_all l cs) + failed_recognitions (listen_all l cs)
  = successful_recognitions l + failed_recognitions l +
    Z.of_nat (List.length (filter (fun c => negb (is_timeout c)) cs)).
Proof.
  revert l. induction cs as [|c cs IH]; intros l; [cbn; lia|].
  unfold listen_all in *. cbn [fold_left filter List.length].
  destruct (IH (fst (listen l c))) as [H1 H2].
  destruct (listen_counts l c) as [H3 H4]. unfold counted in H4.
  rewrite H1, H2, H3. split; [lia|].
  destruct (is_timeout c); cbn [negb List.length]; lia.
Qed.

(** X8. Errors come back as text.  [listen] returns no text exactly when
    the microphone timed out or the speech was unintelligible.  An error
    of the recognition service comes back as a sentence and is counted as
    a successful recognition; an exception from the microphone or the
    recogniser comes back as a sentence and is counted as a failed one. *)
Theorem listen_reports_errors_as_text (l : Listener) :
  (forall c, snd (listen l c) = None <->
             c = CaptureTimeout \/ c = Captured Unintelligible) /\
  (forall msg,
      exists text,
        snd (listen l (Captured (ServiceError msg))) = Some text /\
        is_empty text = false /\
        successful_recognitions (fst (listen l (Captured (ServiceError msg))))
        = successful_recognitions l + 1 /\
        failed_recognitions (fst (listen l (Captured (ServiceError msg))))
        = failed_recognitions l) /\
  (forall e c, c = CaptureError e \/ c = Captured (RecognizerCrash e) ->
      listen l c
      = (count_failure (count_attempt l), Some ("Microphone error: " ++ exn_text e))).
Proof.
  split; [|split].
  - intros c. split.
    + destruct c as [|e|[text| |msg|e]]; auto; unfold listen; intros H.
      * discriminate.
      * cbn [_recognize_online] in H. destruct (truthy (Some text)); discriminate.
      * cbn [_recognize_online] in H.
        destruct (existsb (fun keyword => str_in keyword (lower msg)) network_words);
          cbn in H; discriminate.
      * discriminate.
    + intros [-> | ->]; reflexivity.
  - intros msg. unfold listen, _recognize_online.
    destruct (existsb (fun keyword => str_in keyword (lower msg)) network_words);
      eexists; cbn; auto.
  - intros e c [-> | ->]; reflexivity.
Qed.

End ListenerProps.

(** ** Registry operations and hardware control *)

Module SkillsProps.
Import Py PyStr Assistant AssistantFacts Skills Samples.

Lemma lookup_dict_set_same (k : string) (f : skill_func) (r : Registry) :
  lookup k (dict_set k f r) = Some f.
Proof.
  induction r as [|[k' f'] r IH]; cbn.
  - now rewrite String.eqb_refl.
  - destruct (String.eqb k k') eqn:E; cbn; rewrite E; [reflexivity | exact IH].
Qed.

Lemma lookup_dict_set_other (k k' : string) (f : skill_func) (r : Registry) :
  k' <> k -> lookup k' (dict_set k f r) = lookup k' r.
Proof.
  intros Hne. induction r as [|[k0 f0] r IH]; cbn.
  - apply String.eqb_neq in Hne. now rewrite Hne.
  - destruct (String.eqb k k0) eqn:E; cbn.
    + apply String.eqb_eq in E. subst k0.
      apply String.eqb_neq in Hne. now rewrite Hne.
    + now rewrite IH.
Qed.

Lemma lookup_none_iff (k : string) (r : Registry) :
  lookup k r = None <-> ~ In k (map fst r).
Proof.
  induction r as [|[k' f'] r IH]; cbn; [tauto|].
  destruct (String.eqb k k') eqn:E.
  - apply String.eqb_eq in E. subst. split; [discriminate | tauto].
  - apply String.eqb_neq in E. rewrite IH. split.
    + intros H [H1 | H1]; [congruence | tauto].
    + tauto.
Qed.

Lemma lookup_in (k : string) (f : skill_func) (r : Registry) :
  lookup k r = Some f -> In (k, f) r.
Proof.
  induction r as [|[k' f'] r IH]; cbn; [discriminate|].
  destruct (String.eqb k k') eqn:E.
  - apply String.eqb_eq in E. subst. intros H. injection H as ->. now left.
  - auto.
Qed.

Lemma dict_set_keys (k : string) (f : skill_func) (r : Registry) :
  map fst (dict_set k f r)
  = if has_key k r then map fst r else (map fst r ++ [k])%list.
Proof.
  unfold has_key. induction r as [|[k' f'] r IH]; cbn; [reflexivity|].
  destruct (String.eqb k k') eqn:E; cbn; [reflexivity|].
  rewrite IH. now destruct (lookup k r).
Qed.

Lemma dict_set_nodup (k : string) (f : skill_func) (r : Registry) :
  NoDup (map fst r) -> NoDup (map fst (dict_set k f r)).
Proof.
  intros H. rewrite dict_set_keys. unfold has_key.
  destruct (lookup k r) eqn:E; [exact H|].
  apply lookup_none_iff in E.
  apply NoDup_app; [exact H | repeat constructor; intros [] |].
  intros x Hx [<- | []]. contradiction.
Qed.

Lemma dict_del_absent (k : string) (r : Registry) :
  NoDup (map fst r) -> lookup k (dict_del k r) = None.
Proof.
  induction r as [|[k' f'] r IH]; cbn; [reflexivity|].
  intros H. inversion H as [|? ? Hnotin Hnd]; subst.
  destruct (String.eqb k k') eqn:E.
  - apply String.eqb_eq in E. subst. now apply lookup_none_iff.
  - cbn. rewrite E. auto.
Qed.

Lemma dict_del_other (k k' : string) (r : Registry) :
  k' <> k -> lookup k' (dict_del k r) = lookup k' r.
Proof.
  intros Hne. induction r as [|[k0 f0] r IH]; cbn; [reflexivity|].
  destruct (String.eqb k k0) eqn:E; cbn.
  - apply String.eqb_eq in E. subst k0.
    apply String.eqb_neq in Hne. now rewrite Hne.
  - now rewrite IH.
Qed.

Lemma dict_del_set_fresh (k : string) (f : skill_func) (r : Registry) :
  lookup k r = None -> dict_del k (dict_set k f r) = r.
Proof.
  induction r as [|[k' f'] r IH]; cbn.
  - now rewrite String.eqb_refl.
  - destruct (String.eqb k k') eqn:E; [discriminate|].
    intros H. cbn. rewrite E. now rewrite IH.
Qed.

Example register_overwrites_in_place :
  register_skill "Launch" close_app
                 [("open", open_app); ("launch", open_app); ("time", get_time)]
  = [("open", open_app); ("launch", close_app); ("time", get_time)].
Proof. reflexivity. Qed.

Example unregister_unknown : unregister_skill "dance" SKILLS = (SKILLS, false).
Proof. reflexivity. Qed.

(** X9. Registering is an insert under the lower-cased keyword.  After
    [register_skill(keyword, f)] the entry for the lower-cased keyword is
    [f], every other entry is what it was, keys stay unique, and the
    keyword's own casing makes no difference. *)
Theorem register_then_lookup (keyword : string) (f : skill_func) (r : Registry) :
  lookup (lower keyword) (register_skill keyword f r) = Some f /\
  (forall k', k' <> lower keyword ->
              lookup k' (register_skill keyword f r) = lookup k' r) /\
  (NoDup (map fst r) -> NoDup (map fst (register_skill keyword f r))) /\
  register_skill (lower keyword) f r = register_skill keyword f r.
Proof.
  unfold register_skill. repeat split.
  - apply lookup_dict_set_same.
  - intros k' H. now apply lookup_dict_set_other.
  - apply dict_set_nodup.
  - now rewrite PyStrMore.lower_idem.
Qed.

(** X10. Unregistering.  On a registry with unique keys,
    [unregister_skill(keyword)] answers whether the lower-cased keyword
    was registered; afterwards that keyword has no entry, every other
    entry is what it was, and [find_skill] never answers with it. *)
Theorem unregister_removes (keyword : string) (r : Registry)
        (Hkeys : NoDup (map fst r)) :
  snd (unregister_skill keyword r) = has_key (lower keyword) r /\
  lookup (lower keyword) (fst (unregister_skill keyword r)) = None /\
  (forall k', k' <> lower keyword ->
              lookup k' (fst (unregister_skill keyword r)) = lookup k' r) /\
  (forall text f,
      find_skill (fst (unregister_skill keyword r)) text
      <> Ret (f, Some (lower keyword))).
Proof.
  assert (Hnone : lookup (lower keyword) (fst (unregister_skill keyword r)) = None).
  { unfold unregister_skill, has_key.
    destruct (lookup (lower keyword) r) eqn:E; cbn [fst];
      [now apply dict_del_absent | exact E]. }
  split; [|split; [exact Hnone | split]].
  - unfold unregister_skill. now destruct (has_key (lower keyword) r).
  - intros k' Hne. unfold unregister_skill.
    destruct (has_key (lower keyword) r); cbn [fst];
      [now apply dict_del_other | reflexivity].
  - intros text f Hfound.
    destruct (find_skill_shape _ _ _ Hfound) as [(f0 & k0 & Heq) | Heq];
      [|discriminate Heq].
    injection Heq as -> <-.
    destruct (find_skill_found _ _ _ _ Hfound) as (l1 & l2 & Hreg & _).
    apply lookup_none_iff in Hnone. apply Hnone.
    rewrite Hreg, map_app. apply in_or_app. right. now left.
Qed.

Lemma unregister_removes_witness :
  snd (unregister_skill "Battery" SKILLS) = true /\
  lookup "battery" (fst (unregister_skill "Battery" SKILLS)) = None.
Proof.
  destruct (unregister_removes "Battery" SKILLS) as (H1 & H2 & _).
  - cbn. repeat (constructor; [cbn; intuition discriminate|]). constructor.
  - split; [exact H1 | exact H2].
Defined.

(** X11. A registered skill can be reached.  After
    [register_skill(keyword, f)] with a keyword that is not empty, a text
    that holds the keyword, in whatever mix of upper and lower case either
    was written, is never left without a handler: [find_skill] does not
    answer [(None, None)], and when every callable of the registry has a
    [__name__] it returns a handler.  (When the longest matching entry is
    a callable without [__name__], [find_skill] raises.) *)
Theorem registered_skill_is_reachable
        (keyword : string) (f : skill_func) (r : Registry) (text : string)
        (Hkey : keyword <> EmptyString)
        (Hocc : substring_of (lower keyword) (lower text)) :
  find_skill (register_skill keyword f r) text <> Ret (None, None) /\
  ((forall k f', In (k, f') (register_skill keyword f r) -> has_name f' = true) ->
   exists f' k',
     find_skill (register_skill keyword f r) text = Ret (Some f', Some k')).
Proof.
  assert (Hnot : find_skill (register_skill keyword f r) text <> Ret (None, None)).
  { intros Hnone.
    assert (Hin : In (lower keyword, f) (register_skill keyword f r)).
    { apply lookup_in. apply lookup_dict_set_same. }
    apply PyStrFacts.str_in_iff in Hocc.
    pose proof (find_skill_nothing _ _ Hnone _ _ Hin Hocc) as Hempty.
    destruct keyword; [congruence | discriminate]. }
  split; [exact Hnot|].
  intros Hnames.
  destruct (find_skill_named (register_skill keyword f r) text Hnames) as [res Hres].
  destruct (find_skill_shape _ _ _ Hres) as [(f' & k' & ->) | ->]; [eauto|].
  contradiction.
Qed.

Lemma registered_skill_is_reachable_witness :
  exists f' k',
    find_skill (register_skill "Dance" (registered 7) [("open", open_app)])
               "Jarvis, DANCE for me"
    = Ret (Some f', Some k').
Proof.
  apply (proj2 (registered_skill_is_reachable "Dance" (registered 7)
                  [("open", open_app)] "Jarvis, DANCE for me"
                  ltac:(discriminate)
                  ltac:(apply PyStrFacts.str_in_iff; reflexivity))).
  intros k f' [H | [H | []]]; injection H as <- <-; reflexivity.
Defined.

(** X12. Register, then unregister.  Registering a keyword that had no
    entry and unregistering it again gives back the registry as it was,
    and [unregister_skill] answers [True]. *)
Theorem register_unregister_roundtrip
        (keyword : string) (f : skill_func) (r : Registry)
        (Hfresh : has_key (lower keyword) r = false) :
  unregister_skill keyword (register_skill keyword f r) = (r, true).
Proof.
  unfold unregister_skill, register_skill, has_key in *.
  rewrite lookup_dict_set_same.
  destruct (lookup (lower keyword) r) eqn:E; [discriminate|].
  now rewrite dict_del_set_fresh.
Qed.

Lemma register_unregister_roundtrip_witness :
  unregister_skill "DANCE" (register_skill "Dance" (registered 7) SKILLS)
  = (SKILLS, true).
Proof.
  assert (H := register_unregister_roundtrip "DANCE" (registered 7) SKILLS eq_refl).
  exact H.
Defined.

End SkillsProps.

(** ** Hardware control *)

Module HardwareProps.
Import Py PyStr Assistant Skills Samples MoreSamples.

Example hardware_status_url :
  hardware_url default_hardware "status" = "http://192.168.1.50/status".
Proof. reflexivity. Qed.

Example hardware_terse_device :
  control_hardware_action default_hardware terse_device "on"
  = Ret "Hardware command executed successfully (status 200).".
Proof. reflexivity. Qed.

Lemma control_hardware_returns (hw : HardwareConfig) (http : Http) (action : string) :
  (forall e, http (hardware_url hw action) <> HttpCrash e) ->
  exists s, control_hardware_action hw http action = Ret s /\ is_empty s = false.
Proof.
  intros Hno. unfold control_hardware_action.
  destruct (ENABLE_HARDWARE_CONTROL hw); cbn [negb]; [|eexists; split; reflexivity].
  destruct (http (hardware_url hw action)) as [status text| | |msg|e] eqn:E.
  - destruct (is_empty (strip text)) eqn:Hb; cbn [negb].
    + eexists; split; reflexivity.
    + eexists; split; [reflexivity | exact Hb].
  - eexists; split; reflexivity.
  - eexists; split; reflexivity.
  - eexists; split; reflexivity.
  - now destruct (Hno e).
Qed.

(** X13. [control_hardware] always has something to say.  Unless the HTTP
    call ends in an exception that is not one of [requests], it returns a
    string that is not empty: the device's answer without surrounding
    white space when there is one, a fixed sentence otherwise.  With
    hardware control disabled it returns the same sentence whatever the
    device would do, so the device is not contacted. *)
Theorem control_hardware_answers (hw : HardwareConfig) (http : Http)
        (action : string)
        (Hno : forall e, http (hardware_url hw action) <> HttpCrash e) :
  (exists s, control_hardware_action hw http action = Ret s /\ is_empty s = false) /\
  (forall status_code text,
      ENABLE_HARDWARE_CONTROL hw = true ->
      http (hardware_url hw action) = HttpOk status_code text ->
      is_empty (strip text) = false ->
      control_hardware_action hw http action = Ret (strip text)) /\
  (ENABLE_HARDWARE_CONTROL hw = false ->
   forall http',
     control_hardware_action hw http' action
     = Ret "Hardware control is currently disabled.").
Proof.
  split; [now apply control_hardware_returns | split].
  - intros status text He Hr Hb. unfold control_hardware_action.
    now rewrite He, Hr, Hb.
  - intros He http'. unfold control_hardware_action. now rewrite He.
Qed.

Lemma control_hardware_answers_witness :
  exists s, control_hardware_action default_hardware silent_device "on" = Ret s /\
            is_empty s = false.
Proof.
  apply (control_hardware_answers default_hardware silent_device "on").
  intros e. discriminate.
Defined.

(** X14. The hardware command.  For the [control_hardware] entry,
    [execute_skill] asks the device for one address only, the one of the
    first word left of the command once the keyword is removed, or of
    [status] when nothing is left; and whatever the device does short of
    an exception outside [requests], a timeout included, the command is
    counted in [successful_commands]. *)
Theorem hardware_command_uses_first_word
        (hw : HardwareConfig) (http : Http) (base : Handlers) (j : Jarvis)
        (command keyword : string)
        (Hno : forall e,
            http (hardware_url hw (hd "status" (skill_args command keyword)))
            <> HttpCrash e) :
  (exists s,
      execute_skill (hardware_handlers hw http base) j control_hardware command keyword
      = Ret (incr_successful_commands j, Some s) /\
      control_hardware_action hw http (hd "status" (skill_args command keyword))
      = Ret s) /\
  (forall http',
      http' (hardware_url hw (hd "status" (skill_args command keyword)))
      = http (hardware_url hw (hd "status" (skill_args command keyword))) ->
      execute_skill (hardware_handlers hw http' base) j control_hardware command keyword
      = execute_skill (hardware_handlers hw http base) j control_hardware command keyword).
Proof.
  assert (Hshape : forall h,
             execute_skill_try (hardware_handlers hw h base) control_hardware
                               command keyword
             = returns_text
                 (control_hardware_action hw h
                    (hd "status" (skill_args command keyword)))).
  { intros h. unfold execute_skill_try. cbn [takes_text is_control_hardware].
    destruct (skill_args command keyword); reflexivity. }
  split.
  - destruct (control_hardware_returns hw http _ Hno) as (s & Hs & _).
    exists s. split; [|exact Hs].
    unfold execute_skill. cbn [has_name negb]. now rewrite Hshape, Hs.
  - intros http' Heq. unfold execute_skill. cbn [has_name negb]. rewrite !Hshape.
    unfold control_hardware_action. now rewrite Heq.
Qed.

Lemma hardware_command_uses_first_word_witness :
  exists s,
    execute_skill (hardware_handlers default_hardware silent_device raising_handlers)
                  fresh_jarvis control_hardware "hardware toggle now" "hardware"
    = Ret (incr_successful_commands fresh_jarvis, Some s) /\
    control_hardware_action default_hardware silent_device "toggle" = Ret s.
Proof.
  apply (hardware_command_uses_first_word default_hardware silent_device
           raising_handlers fresh_jarvis "hardware toggle now" "hardware").
  intros e. discriminate.
Defined.

(** X15. The fixed hardware entries.  The entries [lights], [turn on] and
    [turn off] of [SKILLS] send their own fixed action and read nothing of
    the command: whatever follows the keyword, the outcome is the one of
    [control_hardware] with that action. *)
Theorem hardware_lambdas_ignore_command
        (hw : HardwareConfig) (http : Http) (base : Handlers) (j : Jarvis)
        (skill : skill_func) (action command keyword : string)
        (Hskill : In (skill, action)
                     [(lambda_lights, "lights"); (lambda_turn_on, "on");
                      (lambda_turn_off, "off")]) :
  execute_skill (hardware_handlers hw http base) j skill command keyword
  = match control_hardware_action hw http action with
    | Ret s => Ret (incr_successful_commands j, Some s)
    | Raise e =>
        Ret (incr_errors j,
             Some ("I encountered an unexpected error: " ++ exn_text e))
    end.
Proof.
  destruct Hskill as [H | [H | [H | []]]]; injection H as <- <-;
    unfold execute_skill, execute_skill_try;
    cbn [has_name negb takes_text is_control_hardware hardware_handlers];
    destruct (control_hardware_action hw http _); reflexivity.
Qed.

Lemma hardware_lambdas_ignore_command_witness :
  execute_skill (hardware_handlers default_hardware terse_device raising_handlers)
                fresh_jarvis lambda_turn_on "turn on the coffee machine" "turn on"
  = Ret (incr_successful_commands fresh_jarvis,
         Some "Hardware command executed successfully (status 200).").
Proof.
  exact (hardware_lambdas_ignore_command default_hardware terse_device
           raising_handlers fresh_jarvis lambda_turn_on "on"
           "turn on the coffee machine" "turn on" (or_intror (or_introl eq_refl))).
Defined.

End HardwareProps.

(** ** Speech output, continued *)

Module SpeakerMore.
Import Py PyStr Speaker SpeakerOps Samples MoreSamples.

Lemma drain_all (queue : list string) (count : Z) :
  drain queue count = ([], count + Z.of_nat (List.length queue)).
Proof.
  revert count. induction queue as [|t queue IH]; intros count; cbn [drain].
  - cbn. f_equal. lia.
  - rewrite IH. f_equal. cbn [List.length]. lia.
Qed.

Lemma stop_started (engine : Engine) (sp : Speaker) :
  started (stop engine sp) = started sp.
Proof. unfold stop. destruct (halts engine); reflexivity. Qed.

(** What a call of [say] that does not wait adds to the threads started:
    nothing for a blank text, the stripped text otherwise. *)
Lemma say_started (engine : Engine) (sp : Speaker) (text : string) :
  started (say engine sp text false)
  = if forallb is_space (list_ascii_of_string text) then started sp
    else (started sp ++ [strip text])%list.
Proof.
  destruct (forallb is_space (list_ascii_of_string text)) eqn:E.
  - unfold say. rewrite (PyStrFacts.strip_blank _ E). cbn [is_empty].
    now rewrite orb_true_r.
  - now apply SpeakerProps.say_text_starts_thread.
Qed.

Lemma adjust_rate_range (current_rate change : Z) :
  50 <= adjust_rate current_rate change <= 300.
Proof. unfold adjust_rate. lia. Qed.

(** X16. The speaking rate stays between 50 and 300.  One adjustment
    lands in that range from any rate and by any amount, and is the plain
    sum when the sum is in the range; so the rate is in the range after
    any run of one or more adjustments. *)
Theorem adjust_rate_stays_in_range (current_rate : Z) :
  (forall change, 50 <= adjust_rate current_rate change <= 300) /\
  (forall change, 50 <= current_rate + change <= 300 ->
                  adjust_rate current_rate change = current_rate + change) /\
  (forall change changes,
      50 <= adjust_rate_all current_rate (change :: changes) <= 300).
Proof.
  split; [apply adjust_rate_range | split].
  - intros change H. unfold adjust_rate. lia.
  - intros change changes. unfold adjust_rate_all. cbn [fold_left].
    generalize (adjust_rate_range current_rate change).
    generalize (adjust_rate current_rate change) as r.
    induction changes as [|c changes IH]; intros r Hr; cbn [fold_left];
      [exact Hr|].
    apply IH. apply adjust_rate_range.
Qed.

(** X17. Speaking at once drops the backlog.  When no queue processor
    thread is alive, after [say_immediately] the queue is empty whatever it
    held, none of the texts it held has been given a thread, and the one
    thread started is for the new text (none when that text is blank);
    [clear_queue] reports how many texts it removed.  With a live
    processor thread nothing is claimed: it takes texts off the same queue
    and may still speak one of them. *)
Theorem say_immediately_drops_backlog (engine : Engine) (q : Queued)
        (text : string)
        (Hidle : queue_thread_alive q = false) :
  _speech_queue (say_immediately engine q text) = [] /\
  queue_thread_alive (say_immediately engine q text) = false /\
  started (speaker_of (say_immediately engine q text))
  = (if forallb is_space (list_ascii_of_string text)
     then started (speaker_of q)
     else (started (speaker_of q) ++ [strip text])%list) /\
  clear_queue q
  = ({| speaker_of := speaker_of q; _speech_queue := [];
        _queue_active := _queue_active q;
        queue_thread_alive := false |},
     Z.of_nat (List.length (_speech_queue q))).
Proof.
  unfold say_immediately, clear_queue.
  cbn [_speech_queue speaker_of queue_thread_alive].
  rewrite drain_all. cbn [_speech_queue speaker_of queue_thread_alive].
  rewrite Hidle.
  split; [reflexivity | split; [reflexivity | split; [|reflexivity]]].
  now rewrite say_started, stop_started.
Qed.

Lemma say_immediately_drops_backlog_witness :
  _speech_queue (say_immediately good_engine stopped_backlog "Fire alarm") = [] /\
  started (speaker_of (say_immediately good_engine stopped_backlog "Fire alarm"))
  = ["Fire alarm"].
Proof.
  destruct (say_immediately_drops_backlog good_engine stopped_backlog
              "Fire alarm" eq_refl) as (H1 & _ & H2 & _).
  split; [exact H1 | exact H2].
Defined.

End SpeakerMore.

(** ** The main loop, continued *)

Module LoopFacts.
Import Py PyStr Assistant AssistantFacts Loop.

Section WithWorld.
Variable cfg : Config.
Variable registry : Registry.
Variable handlers : Handlers.
Variable backend : Brain.Backend.
Variable engine : Speaker.Engine.

Lemma handle_special_counters (j : Jarvis) (text : string) :
  same_counters j (fst (handle_special_commands cfg engine j text)).
Proof.
  unfold handle_special_commands, same_counters.
  destruct (existsb _ (STOP_WORDS cfg)); [cbn; auto|].
  destruct (str_in "statistics" (lower text) || str_in "stats" (lower text));
    [cbn; auto|].
  destruct (str_in "clear history" (lower text)
            || str_in "forget conversation" (lower text)); [cbn; auto|].
  destruct (str_in "help" (lower text) && str_in "jarvis" (lower text));
    cbn; auto.
Qed.

Lemma handle_special_false (j j1 : Jarvis) (text : string) :
  handle_special_commands cfg engine j text = (j1, false) -> j1 = j.
Proof.
  unfold handle_special_commands.
  destruct (existsb _ (STOP_WORDS cfg)); [discriminate|].
  destruct (str_in "statistics" (lower text) || str_in "stats" (lower text));
    [discriminate|].
  destruct (str_in "clear history" (lower text)
            || str_in "forget conversation" (lower text)); [discriminate|].
  destruct (str_in "help" (lower text) && str_in "jarvis" (lower text));
    [discriminate|].
  now intros [= <-].
Qed.

Lemma handle_special_brain (j : Jarvis) (text : string) :
  brain (fst (handle_special_commands cfg engine j text)) = brain j \/
  brain (fst (handle_special_commands cfg engine j text))
  = Brain.clear_history (brain j).
Proof.
  unfold handle_special_commands.
  destruct (existsb _ (STOP_WORDS cfg)); [now left|].
  destruct (str_in "statistics" (lower text) || str_in "stats" (lower text));
    [now left|].
  destruct (str_in "clear history" (lower text)
            || str_in "forget conversation" (lower text)); [now right|].
  destruct (str_in "help" (lower text) && str_in "jarvis" (lower text));
    now left.
Qed.

Lemma say_one_more (sp : Speaker.Speaker) (text : string) :
  one_more sp (Speaker.say engine sp text false).
Proof.
  unfold one_more. rewrite SpeakerMore.say_started.
  destruct (forallb is_space (list_ascii_of_string text)) eqn:E; [now left|].
  right. exists (strip text). split; [reflexivity|].
  split; [apply PyStrMore.strip_idem|].
  destruct (is_empty (strip text)) eqn:Hs; [|reflexivity].
  apply PyStrFacts.is_empty_true, PyStrFacts.strip_empty_iff in Hs. congruence.
Qed.

Lemma handle_special_one_more (j : Jarvis) (text : string) :
  one_more (speaker j) (speaker (fst (handle_special_commands cfg engine j text))).
Proof.
  unfold handle_special_commands, print_statistics, show_help.
  destruct (existsb _ (STOP_WORDS cfg)).
  { left. cbn [fst set_speaker speaker]. apply SpeakerMore.stop_started. }
  destruct (str_in "statistics" (lower text) || str_in "stats" (lower text)).
  { cbn [fst set_speaker speaker]. apply say_one_more. }
  destruct (str_in "clear history" (lower text)
            || str_in "forget conversation" (lower text)).
  { cbn [fst set_speaker set_brain speaker]. apply say_one_more. }
  destruct (str_in "help" (lower text) && str_in "jarvis" (lower text)).
  { cbn [fst set_speaker speaker]. apply say_one_more. }
  now left.
Qed.

(** What [execute_skill] changes when it returns: one of the two
    counters, and an error comes with a sentence. *)
Lemma execute_skill_frame (j j3 : Jarvis) (skill : skill_func)
      (command keyword : string) (answer : option string) :
  execute_skill handlers j skill command keyword = Ret (j3, answer) ->
  total_interactions j3 = total_interactions j /\
  ai_responses j3 = ai_responses j /\
  brain j3 = brain j /\ speaker j3 = speaker j /\
  ((successful_commands j3 = successful_commands j + 1 /\ errors j3 = errors j) \/
   (successful_commands j3 = successful_commands j /\ errors j3 = errors j + 1 /\
    exists text, answer = Some text)).
Proof.
  unfold execute_skill. destruct (has_name skill); cbn [negb]; [|discriminate].
  destruct (execute_skill_try handlers skill command keyword) as [a|exc];
    intros [= <- <-]; cbn; repeat split; eauto.
Qed.

Lemma process_with_ai_frame (j : Jarvis) (command : string) :
  let j' := fst (process_with_ai cfg backend j command) in
  total_interactions j' = total_interactions j /\
  successful_commands j' = successful_commands j /\
  brain j' = fst (Brain.chat cfg backend (brain j) command) /\
  speaker j' = speaker j /\
  ((ai_responses j' = ai_responses j + 1 /\ errors j' = errors j) \/
   (ai_responses j' = ai_responses j /\ errors j' = errors j + 1)).
Proof.
  unfold process_with_ai.
  destruct (Brain.chat cfg backend (brain j) command) as [b [response|e]]; cbn;
    repeat split; auto.
Qed.

Lemma cycle_pass (j : Jarvis) (heard : option string) :
  pass cfg backend j (cycle cfg registry handlers backend engine j heard).
Proof.
  unfold cycle, cycle_try.
  destruct (Speaker.is_speaking (speaker j)); [constructor|].
  destruct heard as [heard|]; [|constructor].
  destruct (is_empty heard); [constructor|].
  pose proof (handle_special_counters j heard) as Hc.
  pose proof (handle_special_brain j heard) as Hb.
  pose proof (handle_special_one_more j heard) as Hs.
  destruct (handle_special_commands cfg engine j heard) as [j1 special] eqn:E.
  cbn [fst] in *.
  destruct special; [now apply pass_special|].
  apply handle_special_false in E. subst j1.
  destruct (is_wake_word cfg heard); cbn [negb]; [|constructor].
  destruct (is_empty (strip_wake_words cfg heard)).
  { apply pass_wake_only; unfold answered; cbn; auto. }
  set (command := strip_wake_words cfg heard).
  destruct (find_skill registry command) as [[[skill|] kw]|e].
  - destruct (execute_skill handlers (incr_total_interactions j) skill command _)
      as [[j3 answer]|e] eqn:Ex.
    + apply execute_skill_frame in Ex as (H1 & H2 & H3 & H4 & H5).
      cbn [incr_total_interactions total_interactions ai_responses brain speaker
           successful_commands errors] in H1, H2, H3, H4, H5.
      destruct answer as [text|]; cbn [respond].
      * apply (pass_command _ _ _ _ command).
        -- cbn. lia.
        -- unfold answered. cbn. destruct H5 as [[? ?] | [? [? ?]]]; lia.
        -- cbn. destruct H5 as [[? ?] | [? [? ?]]]; lia.
        -- left. cbn. exact H3.
        -- cbn [set_speaker speaker]. rewrite H4. apply say_one_more.
      * destruct H5 as [[H5 H6] | (_ & _ & text & Ht)]; [|discriminate].
        apply (pass_command _ _ _ _ command).
        -- cbn. lia.
        -- unfold answered. cbn. lia.
        -- cbn. lia.
        -- left. cbn. exact H3.
        -- left. cbn. now rewrite H4.
    + apply (pass_command _ _ _ _ command);
        unfold answered; cbn; try lia; now left.
  - pose proof (process_with_ai_frame (incr_total_interactions j) command) as Hf.
    destruct (process_with_ai cfg backend (incr_total_interactions j) command)
      as [j3 answer].
    cbn [fst] in Hf. destruct Hf as (H1 & H2 & H3 & H4 & H5).
    cbn [incr_total_interactions total_interactions ai_responses brain speaker
         successful_commands errors] in H1, H2, H3, H4, H5.
    cbn [respond].
    apply (pass_command _ _ _ _ command).
    + cbn. lia.
    + unfold answered. cbn. destruct H5 as [[? ?] | [? ?]]; lia.
    + cbn. destruct H5 as [[? ?] | [? ?]]; lia.
    + right. cbn. exact H3.
    + cbn [set_speaker speaker]. rewrite H4. apply say_one_more.
  - apply (pass_command _ _ _ _ command);
      unfold answered; cbn; try lia; now left.
Qed.

(** Without a text nothing is counted. *)
Lemma cycle_unheard (j : Jarvis) :
  cycle cfg registry handlers backend engine j None = j.
Proof.
  unfold cycle, cycle_try. now destruct (Speaker.is_speaking (speaker j)).
Qed.

End WithWorld.

Lemma pass_counts (cfg : Config) (backend : Brain.Backend) (j j' : Jarvis) :
  pass cfg backend j j' ->
  0 <= answered j' - answered j <= total_interactions j' - total_interactions j /\
  0 <= errors j' - errors j /\
  total_interactions j' - total_interactions j <= 1.
Proof.
  intros [j0 | j0 j1 (H1 & H2 & H3 & H4 & _) _ _ | j0 j1 H1 H2 H3 _ _
          | j0 j1 command H1 H2 H3 _ _]; unfold answered in *; lia.
Qed.

Lemma pass_history (cfg : Config) (backend : Brain.Backend) (j j' : Jarvis) :
  0 <= MAX_HISTORY_LENGTH cfg ->
  pass cfg backend j j' ->
  Brain.hlen (brain j) <= MAX_HISTORY_LENGTH cfg ->
  Brain.hlen (brain j') <= MAX_HISTORY_LENGTH cfg.
Proof.
  intros Hmax [j0 | j0 j1 _ [-> | ->] _ | j0 j1 _ _ _ -> _
               | j0 j1 command _ _ _ [-> | ->] _] H; auto.
  now apply BrainFacts.chat_length.
Qed.

Lemma pass_threads (cfg : Config) (backend : Brain.Backend) (j j' : Jarvis) :
  pass cfg backend j j' -> one_more (speaker j) (speaker j').
Proof.
  intros [j0 | j0 j1 _ _ H | j0 j1 _ _ _ _ -> | j0 j1 command _ _ _ _ H];
    auto; now left.
Qed.

Lemma listen_heard (l : Listener.Listener) (c : Listener.capture) :
  snd (Listener.listen l c) <> None -> Listener.is_timeout c = false.
Proof. destruct c; [intros H; now destruct H | reflexivity | reflexivity]. Qed.

End LoopFacts.

Module LoopProps.
Import Py PyStr Assistant AssistantFacts Loop LoopFacts Samples MoreSamples.

Lemma loop_body_counts (cfg : Config) (j : Jarvis) (l : Listener.Listener)
      (w : World) :
  let s' := loop_body cfg (j, l) w in
  0 <= answered (fst s') - answered j /\
  answered (fst s') - answered j
  <= total_interactions (fst s') - total_interactions j /\
  total_interactions (fst s') - total_interactions j
  <= Listener.counted (snd s') - Listener.counted l /\
  Listener.counted (snd s') - Listener.counted l
  <= Listener.total_attempts (snd s') - Listener.total_attempts l /\
  Listener.total_attempts (snd s') - Listener.total_attempts l <= 1 /\
  0 <= errors (fst s') - errors j.
Proof.
  unfold loop_body.
  set (j0 := set_speaker j (speech w (speaker j))).
  assert (Hh0 : answered j0 = answered j) by reflexivity.
  assert (Ht0 : total_interactions j0 = total_interactions j) by reflexivity.
  assert (He0 : errors j0 = errors j) by reflexivity.
  destruct (Speaker.is_speaking (speaker j0)); [cbn [fst snd]; lia|].
  destruct (ListenerProps.listen_counts l (microphone w)) as [Ha Hc].
  pose proof (listen_heard l (microphone w)) as Hh.
  destruct (Listener.listen l (microphone w)) as [l' heard]. cbn [fst snd] in *.
  destruct heard as [heard|].
  - rewrite Hh in Hc by discriminate.
    destruct (pass_counts _ _ _ _
                (cycle_pass cfg (registry w) (handlers w) (backend w) (engine w)
                            j0 (Some heard))) as (H1 & H2 & H3).
    lia.
  - rewrite cycle_unheard.
    destruct (Listener.is_timeout (microphone w)); lia.
Qed.

Lemma chat_diagnostic_returns (cfg : Config) (backend : Brain.Backend)
      (b : Brain.Brain) (m : string) (messages : list Brain.Message) :
  Brain.build_messages cfg (Brain.add_user_message cfg b m) = Ret messages ->
  Brain.is_diagnostic (backend messages) = true ->
  exists s, Brain.chat cfg backend b m = (Brain.add_user_message cfg b m, Ret s).
Proof.
  intros Hreq Hd. unfold Brain.is_diagnostic in Hd.
  destruct (backend messages) as [response|e] eqn:Hb.
  - destruct (Brain.get_content response) as [content|e] eqn:Hc; [|discriminate].
    apply PyStrFacts.is_empty_true in Hd. eexists.
    exact (BrainFacts.chat_empty_reply cfg _ _ _ _ _ _ Hreq Hb Hc Hd).
  - rewrite (BrainFacts.chat_backend_raises cfg _ _ _ _ _ Hreq Hb).
    unfold Brain.on_ollama_exc.
    destruct (is_ResponseError e); [eexists; reflexivity|].
    cbn [orb] in Hd. rewrite Hd. eexists; reflexivity.
Qed.

Lemma fold_replace_lower_case (ws : list string) :
  forall s, lower s = s ->
            lower (fold_left (fun command w => replace w EmptyString command) ws s)
            = fold_left (fun command w => replace w EmptyString command) ws s.
Proof.
  induction ws as [|w ws IH]; intros s H; [exact H|].
  cbn [fold_left]. apply IH. now apply PyStrMore.replace_lower_case.
Qed.

Lemma handle_special_lower (cfg : Config) (engine : Speaker.Engine) (j : Jarvis)
      (text : string) :
  handle_special_commands cfg engine j (lower text)
  = handle_special_commands cfg engine j text.
Proof. unfold handle_special_commands. now rewrite PyStrMore.lower_idem. Qed.

Lemma is_wake_word_lower (cfg : Config) (text : string) :
  is_wake_word cfg (lower text) = is_wake_word cfg text.
Proof.
  unfold is_wake_word. now rewrite PyStrMore.is_empty_lower, PyStrMore.lower_idem.
Qed.

Lemma strip_wake_words_lower (cfg : Config) (text : string) :
  strip_wake_words cfg (lower text) = strip_wake_words cfg text.
Proof. unfold strip_wake_words. now rewrite PyStrMore.lower_idem. Qed.

Example run_of_seven_passes :
  let s := run_loop default_config (fresh_jarvis, Listener.init true) sample_worlds in
  (total_interactions (fst s), successful_commands (fst s), ai_responses (fst s),
   errors (fst s), Listener.total_attempts (snd s),
   Listener.successful_recognitions (snd s), Listener.failed_recognitions (snd s))
  = (3, 1, 1, 0, 7, 4, 2).
Proof. reflexivity. Qed.

Example capital_wake_word_is_deaf :
  is_wake_word capital_config "Jarvis what time" = false.
Proof. reflexivity. Qed.

(** X18. The counters of a run.  Over any run of passes of the loop, from
    any state and whatever is heard and done: the commands answered
    ([successful_commands + ai_responses]) never go down and grow by no
    more than [total_interactions]; [total_interactions] by no more than
    the recognitions and failures the listener counted; those by no more
    than its attempts; the attempts by no more than the number of passes;
    and [errors] never goes down.  [errors] is not bounded by
    [total_interactions]: a command whose handler returns [None] is counted
    in [successful_commands] and in [errors] (see
    [AssistantProps.cycle_handler_returns_none]). *)
Theorem loop_counters_are_ordered (cfg : Config) (s : State) (ws : list World) :
  let s' := run_loop cfg s ws in
  0 <= answered (fst s') - answered (fst s) /\
  answered (fst s') - answered (fst s)
  <= total_interactions (fst s') - total_interactions (fst s) /\
  total_interactions (fst s') - total_interactions (fst s)
  <= Listener.counted (snd s') - Listener.counted (snd s) /\
  Listener.counted (snd s') - Listener.counted (snd s)
  <= Listener.total_attempts (snd s') - Listener.total_attempts (snd s) /\
  Listener.total_attempts (snd s') - Listener.total_attempts (snd s)
  <= Z.of_nat (List.length ws) /\
  0 <= errors (fst s') - errors (fst s).
Proof.
  revert s. induction ws as [|w ws IH]; intros [j l]; [cbn; lia|].
  unfold run_loop in *. cbn [fold_left List.length].
  specialize (IH (loop_body cfg (j, l) w)).
  pose proof (loop_body_counts cfg j l w) as Hstep.
  cbv zeta in IH, Hstep. cbn [fst snd]. lia.
Qed.

(** X19. The history bound holds through the loop.  With a bound of zero
    or more, a brain whose history is within [MAX_HISTORY_LENGTH] is still
    within it after any run of passes of the loop. *)
Theorem loop_keeps_history_bounded (cfg : Config) (s : State) (ws : list World)
        (Hmax : 0 <= MAX_HISTORY_LENGTH cfg)
        (Hstart : Brain.hlen (brain (fst s)) <= MAX_HISTORY_LENGTH cfg) :
  Brain.hlen (brain (fst (run_loop cfg s ws))) <= MAX_HISTORY_LENGTH cfg.
Proof.
  revert s Hstart. induction ws as [|w ws IH]; intros [j l] Hstart; [exact Hstart|].
  unfold run_loop in *. cbn [fold_left]. apply IH.
  unfold loop_body. cbn [fst] in Hstart.
  set (j0 := set_speaker j (speech w (speaker j))).
  assert (H0 : Brain.hlen (brain j0) <= MAX_HISTORY_LENGTH cfg) by exact Hstart.
  destruct (Speaker.is_speaking (speaker j0)); [exact H0|].
  destruct (Listener.listen l (microphone w)) as [l' heard]. cbn [fst].
  exact (pass_history cfg _ _ _ Hmax (cycle_pass cfg _ _ _ _ j0 heard) H0).
Qed.

Lemma loop_keeps_history_bounded_witness :
  Brain.hlen (brain (fst (run_loop default_config
                                   (fresh_jarvis, Listener.init true)
                                   sample_worlds))) <= 10.
Proof.
  apply (loop_keeps_history_bounded default_config
           (fresh_jarvis, Listener.init true) sample_worlds);
    cbn; lia.
Defined.

(** X20. One utterance per pass.  Counting from the speaker's state as the
    speech threads left it, a pass of the loop starts at most one speech
    thread, and only for a text that is stripped and not empty; when that
    state says the speaker is speaking, the pass does nothing more: the
    listener is not called and nothing is counted, routed or said. *)
Theorem pass_starts_at_most_one_thread (cfg : Config) (j : Jarvis)
        (l : Listener.Listener) (w : World) :
  one_more (speech w (speaker j)) (speaker (fst (loop_body cfg (j, l) w))) /\
  (Speaker.is_speaking (speech w (speaker j)) = true ->
   loop_body cfg (j, l) w = (set_speaker j (speech w (speaker j)), l)).
Proof.
  unfold loop_body. cbn [set_speaker speaker]. split.
  - destruct (Speaker.is_speaking (speech w (speaker j))); [now left|].
    destruct (Listener.listen l (microphone w)) as [l' heard]. cbn [fst].
    exact (pass_threads cfg _ _ _
             (cycle_pass cfg _ _ _ _ (set_speaker j (speech w (speaker j))) heard)).
  - now intros ->.
Qed.

(** X21. Control phrases need no wake word.  A heard text that holds a
    control phrase is dealt with by [handle_special_commands] alone: the
    four counters and [running] keep their values, and the pass is the
    same whatever the registry, the handlers and the backend are, so
    neither a skill nor the model is called. *)
Theorem control_phrase_bypasses_routing
        (cfg : Config) (registry : Registry) (handlers : Handlers)
        (backend : Brain.Backend) (engine : Speaker.Engine)
        (j : Jarvis) (heard : string)
        (Hspecial : has_special_phrase cfg heard = true) :
  same_counters j (cycle cfg registry handlers backend engine j (Some heard)) /\
  forall registry' handlers' backend',
    cycle cfg registry' handlers' backend' engine j (Some heard)
    = cycle cfg registry handlers backend engine j (Some heard).
Proof.
  pose proof (handle_special_commands_some cfg engine j heard Hspecial) as Hs.
  pose proof (handle_special_counters cfg engine j heard) as Hc.
  unfold cycle, cycle_try.
  destruct (Speaker.is_speaking (speaker j));
    [split; [unfold same_counters; auto | reflexivity]|].
  destruct (is_empty heard);
    [split; [unfold same_counters; auto | reflexivity]|].
  destruct (handle_special_commands cfg engine j heard) as [j1 special].
  cbn [fst snd] in *. subst special. split; [exact Hc | reflexivity].
Qed.

Lemma control_phrase_bypasses_routing_witness :
  same_counters fresh_jarvis
    (cycle default_config SKILLS raising_handlers (fails OtherException "down")
           good_engine fresh_jarvis (Some "please forget conversation")).
Proof.
  exact (proj1 (control_phrase_bypasses_routing default_config SKILLS
                  raising_handlers (fails OtherException "down") good_engine
                  fresh_jarvis "please forget conversation" eq_refl)).
Defined.

(** A reply with content [None] is not a diagnostic: [chat] raises and
    [process_with_ai] counts an error. *)
Example process_with_ai_reply_without_content :
  let r := process_with_ai default_config (fun _ => Ret reply_without_content)
                           fresh_jarvis "tell me a joke" in
  (ai_responses (fst r), errors (fst r), snd r)
  = (0, 1,
     "I had trouble processing that: 'NoneType' object has no attribute 'strip'").
Proof. reflexivity. Qed.

(** X22. A diagnostic counts as an AI response.  When the backend raises
    a backend error or a connection error, or replies with a text that is
    empty or blank (a reply dictionary without the message or the content
    key included), [process_with_ai] passes on the sentence [chat] returns
    and counts the command in [ai_responses]; [errors] keeps its value.
    A reply with [None] where the text should be is not such an outcome
    ([is_diagnostic] is false on it): [chat] raises and the command is
    counted in [errors]. *)
Theorem diagnostic_counts_as_ai_response
        (cfg : Config) (backend : Brain.Backend) (j : Jarvis) (command : string)
        (messages : list Brain.Message)
        (Hreq : Brain.build_messages cfg (Brain.add_user_message cfg (brain j) command)
                = Ret messages)
        (Hdiag : Brain.is_diagnostic (backend messages) = true) :
  ai_responses (fst (process_with_ai cfg backend j command)) = ai_responses j + 1 /\
  errors (fst (process_with_ai cfg backend j command)) = errors j /\
  Brain.chat cfg backend (brain j) command
  = (brain (fst (process_with_ai cfg backend j command)),
     Ret (snd (process_with_ai cfg backend j command))).
Proof.
  destruct (chat_diagnostic_returns cfg backend (brain j) command messages Hreq Hdiag)
    as [s Hs].
  unfold process_with_ai. rewrite Hs. cbn. auto.
Qed.

Lemma diagnostic_counts_as_ai_response_witness :
  ai_responses (fst (process_with_ai default_config
                       (fails ConnectionError "connection refused")
                       fresh_jarvis "tell me a joke")) = 0 + 1 /\
  errors (fst (process_with_ai default_config
                 (fails ConnectionError "connection refused")
                 fresh_jarvis "tell me a joke")) = 0.
Proof.
  destruct (diagnostic_counts_as_ai_response default_config
              (fails ConnectionError "connection refused") fresh_jarvis
              "tell me a joke"
              [Brain.mkMessage Brain.system "You are Jarvis.";
               Brain.mkMessage Brain.user "tell me a joke"]
              eq_refl eq_refl) as (H1 & H2 & _).
  split; [exact H1 | exact H2].
Defined.

(** X23. The command is lower-case and stripped.  What [strip_wake_words]
    returns equals its own lower-casing and its own [strip()]: the
    command that reaches the skills and the model has no upper-case letter
    and no white space at either end. *)
Theorem command_is_lower_case_and_stripped (cfg : Config) (text : string) :
  lower (strip_wake_words cfg text) = strip_wake_words cfg text /\
  strip (strip_wake_words cfg text) = strip_wake_words cfg text.
Proof.
  unfold strip_wake_words. split.
  - apply PyStrMore.strip_lower_case, fold_replace_lower_case, PyStrMore.lower_idem.
  - apply PyStrMore.strip_idem.
Qed.

(** X24. The case of what is heard does not matter.  A pass of the loop
    on a heard text and on its lower-casing end in the same state. *)
Theorem cycle_ignores_case
        (cfg : Config) (registry : Registry) (handlers : Handlers)
        (backend : Brain.Backend) (engine : Speaker.Engine)
        (j : Jarvis) (heard : string) :
  cycle cfg registry handlers backend engine j (Some (lower heard))
  = cycle cfg registry handlers backend engine j (Some heard).
Proof.
  unfold cycle, cycle_try.
  now rewrite PyStrMore.is_empty_lower, handle_special_lower, is_wake_word_lower,
    strip_wake_words_lower.
Qed.

(** X25. A wake word must be written in lower case.  When every
    configured wake word has an upper-case letter, [is_wake_word] is false
    for every text, and no pass of the loop ever counts an interaction. *)
Theorem capital_wake_words_never_match (cfg : Config)
        (Hcap : forall w, In w (WAKE_WORDS cfg) -> lower w <> w) :
  (forall text, is_wake_word cfg text = false) /\
  (forall registry handlers backend engine j heard,
      total_interactions (cycle cfg registry handlers backend engine j heard)
      = total_interactions j).
Proof.
  assert (Hw : forall text, is_wake_word cfg text = false).
  { intros text. unfold is_wake_word. destruct (is_empty text); [reflexivity|].
    destruct (existsb _ (WAKE_WORDS cfg)) eqn:E; [|reflexivity].
    apply existsb_exists in E as (w & Hin & Hocc).
    apply PyStrMore.str_in_lower_case in Hocc. now destruct (Hcap w Hin). }
  split; [exact Hw|].
  intros registry handlers backend engine j heard. unfold cycle, cycle_try.
  destruct (Speaker.is_speaking (speaker j)); [reflexivity|].
  destruct heard as [heard|]; [|reflexivity].
  destruct (is_empty heard); [reflexivity|].
  pose proof (handle_special_counters cfg engine j heard) as (Hc & _).
  destruct (handle_special_commands cfg engine j heard) as [j1 special].
  cbn [fst] in Hc. rewrite Hw. cbn [negb]. now destruct special.
Qed.

Lemma capital_wake_words_never_match_witness :
  is_wake_word capital_config "JARVIS, what time is it" = false.
Proof.
  apply (proj1 (capital_wake_words_never_match capital_config
                  ltac:(intros w [<- | []]; discriminate))).
Defined.

(** X26. Only lower-case keywords are found.  The keyword [find_skill]
    answers with equals its own lower-casing: an entry whose key has an
    upper-case letter is never selected. *)
Theorem find_skill_keyword_is_lower_case
        (registry : Registry) (text : string) (f : skill_func) (k : string)
        (Hfound : find_skill registry text = Ret (Some f, Some k)) :
  lower k = k.
Proof.
  apply find_skill_found in Hfound as (l1 & l2 & _ & _ & _ & Hocc & _).
  exact (PyStrMore.str_in_lower_case _ _ Hocc).
Qed.

Lemma find_skill_keyword_is_lower_case_witness : lower "open" = "open".
Proof.
  exact (find_skill_keyword_is_lower_case
           [("OPEN", close_app); ("open", open_app)] "OPEN the door"
           open_app "open" eq_refl).
Defined.

End LoopProps.

(** ** Arguments of a skill, an exchange, a bare wake word *)

Module DispatchProps.
Import Py PyStr Words Assistant AssistantFacts Samples.

Lemma is_word_cons (c : ascii) (w : string) :
  is_word (String c w) = true <->
  is_space c = false /\ (w = EmptyString \/ is_word w = true).
Proof.
  unfold is_word. cbn [is_empty negb andb list_ascii_of_string forallb].
  destruct (is_space c); cbn [negb andb].
  - split; [discriminate | intros [H _]; discriminate].
  - split.
    + intros H. split; [reflexivity|].
      destruct w; [now left | right; exact H].
    + intros [_ [-> | H]]; [reflexivity|].
      apply andb_true_iff in H as [_ H]. exact H.
Qed.

Lemma split_words (s : string) : Forall (fun w => is_word w = true) (split s).
Proof.
  induction s as [|c s IH]; [constructor|].
  cbn [split]. destruct (is_space c) eqn:Hc; [exact IH|].
  destruct s as [|c' s'].
  - constructor; [|constructor]. apply is_word_cons. auto.
  - destruct (is_space c') eqn:Hc'.
    + constructor; [|exact IH]. apply is_word_cons. auto.
    + destruct (split (String c' s')) as [|w ws].
      * constructor; [|constructor]. apply is_word_cons. auto.
      * inversion IH as [|? ? Hw Hws]; subst.
        constructor; [|exact Hws]. apply is_word_cons. auto.
Qed.

Lemma split_word (w : string) : is_word w = true -> split w = [w].
Proof.
  induction w as [|c w IH]; [discriminate|].
  intros H. apply is_word_cons in H as [Hc [-> | Hw]].
  - cbn [split]. now rewrite Hc.
  - cbn [split]. rewrite Hc. destruct w as [|c' w']; [discriminate|].
    pose proof Hw as Hw'. apply is_word_cons in Hw' as [Hc' _].
    rewrite Hc', (IH Hw). reflexivity.
Qed.

Lemma split_word_then_space (w s : string) :
  is_word w = true -> split (w ++ String " " s) = w :: split s.
Proof.
  induction w as [|c w IH]; [discriminate|].
  intros H. apply is_word_cons in H as [Hc [-> | Hw]].
  - cbn [append split]. rewrite Hc. reflexivity.
  - cbn [append]. destruct w as [|c' w']; [discriminate|].
    pose proof Hw as Hw'. apply is_word_cons in Hw' as [Hc' _].
    specialize (IH Hw). cbn [append] in IH |- *.
    cbn [split]. rewrite Hc, Hc'.
    cbn [split] in IH. rewrite Hc' in IH. rewrite IH. reflexivity.
Qed.

Lemma split_join (ws : list string) :
  Forall (fun w => is_word w = true) ws -> split (join " " ws) = ws.
Proof.
  induction 1 as [|w ws Hw Hws IH]; [reflexivity|].
  destruct ws as [|w2 ws].
  - cbn [join]. now apply split_word.
  - change (join " " (w :: w2 :: ws)) with (w ++ String " " (join " " (w2 :: ws))).
    rewrite (split_word_then_space _ _ Hw). now rewrite IH.
Qed.

Lemma trimmed_keeps_last_two (cfg : Config) (h : list Brain.Message)
      (u a : Brain.Message) :
  2 <= MAX_HISTORY_LENGTH cfg ->
  exists h', Brain.trimmed cfg ((h ++ [u]) ++ [a]) = (h' ++ [u; a])%list.
Proof.
  intros H. unfold Brain.trimmed.
  rewrite <- app_assoc. cbn [app]. rewrite length_app. cbn [List.length].
  rewrite skipn_app.
  replace (Z.to_nat _ - List.length h)%nat with 0%nat by lia.
  cbn [skipn]. eauto.
Qed.

Example hey_jarvis_leaves_hey :
  strip_wake_words default_config "Hey Jarvis" = "hey".
Proof. reflexivity. Qed.

(** X27. The argument of a text skill.  The words [execute_skill] takes
    from the command are non-empty and free of white space, and joining
    them with single spaces loses nothing: splitting the argument handed
    to [open_app], [close_app] or [search_web] gives the same words back. *)
Theorem skill_argument_is_normalised (command keyword : string) :
  Forall (fun w => is_word w = true) (skill_args command keyword) /\
  split (join " " (skill_args command keyword)) = skill_args command keyword.
Proof.
  assert (H : Forall (fun w => is_word w = true) (skill_args command keyword))
    by apply split_words.
  split; [exact H | now apply split_join].
Qed.

(** X28. A successful exchange is recorded as returned.  With room for two
    messages, when the backend replies with some text, [chat] returns that
    text without its surrounding white space, and the history ends with
    the user message followed by an assistant message holding exactly the
    text returned. *)
Theorem successful_exchange_is_recorded
        (cfg : Config) (backend : Brain.Backend) (b : Brain.Brain) (m : string)
        (messages : list Brain.Message) (response : Brain.Response)
        (content : string)
        (Hmax : 2 <= MAX_HISTORY_LENGTH cfg)
        (Hreq : Brain.build_messages cfg (Brain.add_user_message cfg b m)
                = Ret messages)
        (Hreply : backend messages = Ret response)
        (Hcontent : Brain.get_content response = Ret content)
        (Htext : is_empty (strip content) = false) :
  snd (Brain.chat cfg backend b m) = Ret (strip content) /\
  exists h',
    Brain.history (fst (Brain.chat cfg backend b m))
    = (h' ++ [Brain.mkMessage Brain.user m;
              Brain.mkMessage Brain.assistant (strip content)])%list.
Proof.
  unfold Brain.chat, Brain.chat_try. rewrite Hreq, Hreply, Hcontent, Htext.
  cbn [fst snd try_except]. split; [reflexivity|].
  rewrite BrainFacts.trim_history_trimmed.
  cbn [Brain.append_message Brain.set_history Brain.history].
  rewrite BrainFacts.add_user_history.
  destruct (BrainFacts.trimmed_keeps_last cfg (Brain.history b)
              (Brain.mkMessage Brain.user m)) as [h1 ->]; [lia|].
  now apply trimmed_keeps_last_two.
Qed.

Lemma successful_exchange_is_recorded_witness :
  snd (Brain.chat default_config (answers "  Good evening. ") greeted_brain "hello")
  = Ret "Good evening.".
Proof.
  exact (proj1 (successful_exchange_is_recorded default_config
                  (answers "  Good evening. ") greeted_brain "hello"
                  [Brain.mkMessage Brain.system "You are Jarvis.";
                   Brain.mkMessage Brain.user "hi";
                   Brain.mkMessage Brain.assistant "Hello.";
                   Brain.mkMessage Brain.user "hello"]
                  (reply_of "  Good evening. ") "  Good evening. "
                  ltac:(simpl; lia) eq_refl eq_refl eq_refl eq_refl)).
Defined.

(** X29. A bare wake word.  When the speaker is silent and the heard text
    holds a wake word, no control phrase, and nothing else once the wake
    words are removed, the pass counts an interaction and does nothing
    more: no skill, no model call, nothing said. *)
Theorem wake_word_alone_is_counted
        (cfg : Config) (registry : Registry) (handlers : Handlers)
        (backend : Brain.Backend) (engine : Speaker.Engine)
        (j : Jarvis) (heard : string)
        (Hquiet : Speaker.is_speaking (speaker j) = false)
        (Hplain : has_special_phrase cfg heard = false)
        (Hwake : is_wake_word cfg heard = true)
        (Hbare : strip_wake_words cfg heard = EmptyString) :
  cycle cfg registry handlers backend engine j (Some heard)
  = incr_total_interactions j.
Proof.
  unfold cycle, cycle_try. rewrite Hquiet.
  assert (Hne : is_empty heard = false).
  { unfold is_wake_word in Hwake. now destruct (is_empty heard). }
  rewrite Hne, (handle_special_commands_none cfg engine j heard Hplain), Hwake, Hbare.
  reflexivity.
Qed.

Lemma wake_word_alone_is_counted_witness :
  cycle default_config SKILLS raising_handlers (fails OtherException "down")
        good_engine fresh_jarvis (Some " Jarvis ")
  = incr_total_interactions fresh_jarvis.
Proof.
  exact (wake_word_alone_is_counted default_config SKILLS raising_handlers
           (fails OtherException "down") good_engine fresh_jarvis " Jarvis "
           eq_refl eq_refl eq_refl eq_refl).
Defined.

(** X30. A handler that returns nothing.  When the speaker is silent and
    the command reaches a skill whose handler returns [None], the pass
    counts the interaction, counts the command in [successful_commands]
    (inside [execute_skill]) and, as slicing the result raises, in
    [errors] too (the [except] clause of [run]); nothing is said and the
    model is not called. *)
Theorem none_answer_counts_success_and_error
        (cfg : Config) (registry : Registry) (handlers : Handlers)
        (backend : Brain.Backend) (engine : Speaker.Engine)
        (j : Jarvis) (heard : string) (skill : skill_func) (keyword : string)
        (Hquiet : Speaker.is_speaking (speaker j) = false)
        (Hplain : has_special_phrase cfg heard = false)
        (Hwake : is_wake_word cfg heard = true)
        (Hfound : find_skill registry (strip_wake_words cfg heard)
                  = Ret (Some skill, Some keyword))
        (Hnone : execute_skill_try handlers skill (strip_wake_words cfg heard) keyword
                 = Ret None) :
  cycle cfg registry handlers backend engine j (Some heard)
  = incr_errors (incr_successful_commands (incr_total_interactions j)).
Proof.
  unfold cycle, cycle_try. rewrite Hquiet.
  assert (Hne : is_empty heard = false).
  { unfold is_wake_word in Hwake. now destruct (is_empty heard). }
  rewrite Hne, (handle_special_commands_none cfg engine j heard Hplain), Hwake.
  cbn [negb].
  destruct (find_skill_found _ _ _ _ Hfound) as (l1 & l2 & _ & Hname & Hpos & Hocc & _).
  assert (Hcommand : is_empty (strip_wake_words cfg heard) = false).
  { destruct (strip_wake_words cfg heard); [|reflexivity].
    destruct keyword; [cbn in Hpos; lia | discriminate Hocc]. }
  rewrite Hcommand, Hfound. unfold execute_skill. rewrite Hname, Hnone.
  reflexivity.
Qed.

Lemma none_answer_counts_success_and_error_witness :
  cycle default_config SKILLS mute_handlers (answers "unused") good_engine
        fresh_jarvis (Some "jarvis what time")
  = incr_errors (incr_successful_commands (incr_total_interactions fresh_jarvis)).
Proof.
  exact (none_answer_counts_success_and_error default_config SKILLS mute_handlers
           (answers "unused") good_engine fresh_jarvis "jarvis what time"
           get_time "what time" eq_refl eq_refl eq_refl eq_refl eq_refl).
Defined.

End DispatchProps.
